(** * Recipe Explorer backend: the storage layer

    A shallow embedding of [recipe_app_backend/app/storage.py]: the JSON
    file-backed recipe repository ([_read_file], [_write_file],
    [_normalize_recipe], [list_recipes], [get_recipe], [create_recipe],
    [update_recipe], [delete_recipe]) and the in-memory session registry
    ([create_session], [get_session], [delete_session]).

    Python is dynamically typed, so the embedding works on a universe of
    Python values (the ones [json.load] can produce), raises Python's
    exceptions as an explicit error result, and threads the store file, the
    session dictionary and the clock through a state monad. *)

From Stdlib Require Import ZArith String Ascii List Bool Lia.
From stdpp Require Import base option list gmap strings pretty fin_maps.

Local Open Scope string_scope.
Local Open Scope list_scope.
Local Open Scope Z_scope.

Set Warnings "-register-all".

(** ** Python values *)

(** What [json.load] returns: [None], [bool], [int], [str], [list], and
    [dict] with [str] keys.  A dict is a finite map: Python's [==], [in],
    [.get] and [.update] do not look at the insertion order.  JSON numbers
    with a fraction or an exponent (Python [float]) are not represented; a
    [str] is a sequence of 8-bit characters. *)
Inductive value : Type :=
  | VNone
  | VBool (b : bool)
  | VInt (z : Z)
  | VStr (s : string)
  | VList (l : list value)
  | VDict (d : gmap string value).

Abbreviation pydict := (gmap string value).

(** ** Exceptions and the two monads *)

Inductive exn : Type :=
  | TypeError
  | AttributeError
  | KeyError
  | IndexError
  | ValueError.

Inductive result (A : Type) : Type :=
  | Ok (a : A)
  | Raise (e : exn).
Arguments Ok {A} a.
Arguments Raise {A} e.

Definition rbind {A B} (r : result A) (k : A -> result B) : result B :=
  match r with
  | Ok a => k a
  | Raise e => Raise e
  end.

(** The store file as [_read_file] sees it: missing, present but making
    [open] or [json.load] raise, or present with the value [json.load]
    decodes it to.  On the values [json.dump] can encode, [json.dump]
    followed by [json.load] is the identity; that is a property of
    Python's json module and is built into this representation, not
    something proved here. *)
Inductive File : Type :=
  | Absent
  | Undecodable
  | Decoded (v : value).

(** One session record, the dict literal of [create_session]. *)
Record Session : Type := mkSession {
  user_id : string;
  name : string;
  created_at : Z
}.

(** The process state: the store file, the module-level [_sessions] dict and
    the number of clock readings taken so far. *)
Record World : Type := mkWorld {
  file : File;
  sessions : gmap string Session;
  ticks : nat
}.

Definition M (A : Type) : Type := World -> result A * World.

Definition ret {A} (a : A) : M A := fun w => (Ok a, w).
Definition raise {A} (e : exn) : M A := fun w => (Raise e, w).
Definition bind {A B} (m : M A) (k : A -> M B) : M B :=
  fun w => match m w with
           | (Ok a, w') => k a w'
           | (Raise e, w') => (Raise e, w')
           end.
Definition lift {A} (r : result A) : M A := fun w => (r, w).

(** [try: ... except Exception:] *)
Definition try_except {A} (m : M A) (handler : M A) : M A :=
  fun w => match m w with
           | (Ok a, w') => (Ok a, w')
           | (Raise _, w') => handler w'
           end.

Declare Scope py_scope.
Delimit Scope py_scope with py.
Notation "'let*' x ':=' m 'in' k" := (bind m (fun x => k))
  (at level 10, x name, m at level 100, k at level 200, only parsing) : py_scope.
Notation "'let?' x ':=' r 'in' k" := (rbind r (fun x => k))
  (at level 10, x name, r at level 100, k at level 200, only parsing) : py_scope.
Local Open Scope py_scope.

Definition get_file : M File := fun w => (Ok (file w), w).
Definition put_file (f : File) : M unit :=
  fun w => (Ok tt, mkWorld f (sessions w) (ticks w)).
Definition get_sessions : M (gmap string Session) := fun w => (Ok (sessions w), w).
Definition put_sessions (s : gmap string Session) : M unit :=
  fun w => (Ok tt, mkWorld (file w) s (ticks w)).

(** ** Python primitives used by storage.py *)

(** Truth value of an object ([if q:], [x or y]). *)
Definition truthy (v : value) : bool :=
  match v with
  | VNone => false
  | VBool b => b
  | VInt z => negb (z =? 0)%Z
  | VStr s => negb (String.eqb s "")
  | VList l => match l with [] => false | _ => true end
  | VDict d => negb (Nat.eqb (size d) 0)
  end.

(** [x or y] *)
Definition py_or (x y : value) : value := if truthy x then x else y.

(** [needle in hay] on two [str]: substring test. *)
Fixpoint is_substring (needle hay : string) : bool :=
  String.prefix needle hay ||
  match hay with
  | EmptyString => false
  | String _ rest => is_substring needle rest
  end.

Definition is_str (s : string) (v : value) : bool :=
  match v with
  | VStr t => String.eqb s t
  | _ => false
  end.

(** ["key" in obj]: key lookup on a dict, element search on a list,
    substring on a str; the other types are not containers. *)
Definition py_contains_str (s : string) (obj : value) : result bool :=
  match obj with
  | VDict d => Ok (match d !! s with Some _ => true | None => false end)
  | VList l => Ok (existsb (is_str s) l)
  | VStr t => Ok (is_substring s t)
  | VNone | VBool _ | VInt _ => Raise TypeError
  end.

(** [obj[key]] with a [str] key. *)
Definition py_getitem_str (obj : value) (key : string) : result value :=
  match obj with
  | VDict d => match d !! key with
               | Some v => Ok v
               | None => Raise KeyError
               end
  | _ => Raise TypeError
  end.

(** [obj.get(key, default)]: a dict method. *)
Definition py_get (obj : value) (key : string) (default : value) : result value :=
  match obj with
  | VDict d => Ok (match d !! key with Some v => v | None => default end)
  | _ => Raise AttributeError
  end.

(** [obj[key] = v] with a [str] key. *)
Definition py_setitem_str (obj : value) (key : string) (v : value) : result value :=
  match obj with
  | VDict d => Ok (VDict (<[key := v]> d))
  | _ => Raise TypeError
  end.

(** [obj[i] = v] with an [int] index [0 <= i]; storage.py only does this on
    the object it is enumerating, at the index of an element whose [.get]
    succeeded, which makes the object a list (iterating a dict or a str
    yields strs, which have no [.get]). *)
Definition py_setitem_nat (obj : value) (i : nat) (v : value) : result value :=
  match obj with
  | VList l => if (i <? length l)%nat then Ok (VList (<[i := v]> l)) else Raise IndexError
  | _ => Raise TypeError
  end.

(** [obj.append(x)]: a list method. *)
Definition py_append (obj : value) (x : value) : result value :=
  match obj with
  | VList l => Ok (VList (l ++ [x]))
  | _ => Raise AttributeError
  end.

(** [len(obj)] *)
Definition py_len (obj : value) : result Z :=
  match obj with
  | VList l => Ok (Z.of_nat (length l))
  | VStr s => Ok (Z.of_nat (String.length s))
  | VDict d => Ok (Z.of_nat (size d))
  | VNone | VBool _ | VInt _ => Raise TypeError
  end.

(** [for x in obj]: the elements of a list, the characters of a str, the
    keys of a dict. *)
Definition py_iter (obj : value) : result (list value) :=
  match obj with
  | VList l => Ok l
  | VStr s => Ok (map (fun c => VStr (String c EmptyString)) (list_ascii_of_string s))
  | VDict d => Ok (map (fun kv => VStr (fst kv)) (map_to_list d))
  | VNone | VBool _ | VInt _ => Raise TypeError
  end.

(** A slice bound [i] on a sequence of length [n], as Python adjusts it:
    negative bounds count from the end, all bounds are clipped to [0, n]. *)
Definition slice_bound (i : Z) (n : nat) : nat :=
  if i <? 0 then Z.to_nat (Z.max (i + Z.of_nat n) 0)
  else Nat.min (Z.to_nat i) n.

Definition slice_list {A} (l : list A) (start stop : Z) : list A :=
  let a := slice_bound start (length l) in
  let b := slice_bound stop (length l) in
  firstn (b - a) (skipn a l).

(** [obj[start:stop]]: lists and strs can be sliced; a dict raises
    ([TypeError] up to Python 3.11, [KeyError] from 3.12). *)
Definition py_slice (obj : value) (start stop : Z) : result value :=
  match obj with
  | VList l => Ok (VList (slice_list l start stop))
  | VStr s =>
      Ok (VStr (string_of_list_ascii (slice_list (list_ascii_of_string s) start stop)))
  | _ => Raise TypeError
  end.

(** [x == n] for an [int] [n]: a bool compares as 0 or 1, every other
    non-number is different from any int. *)
Definition py_eq_int (x : value) (n : Z) : bool :=
  match x with
  | VInt z => z =? n
  | VBool b => Z.b2z b =? n
  | _ => false
  end.

(** [str.lower()] on ASCII text: A..Z go to a..z, every other character is
    left as it is.  Outside ASCII Python's [str.lower] follows the Unicode
    case tables, which are not modelled: what is proved of the folding
    itself is stated for ASCII text. *)
Definition lower_ascii (c : ascii) : ascii :=
  let n := N_of_ascii c in
  if ((65 <=? n) && (n <=? 90))%N then ascii_of_N (n + 32) else c.

Fixpoint str_lower (s : string) : string :=
  match s with
  | EmptyString => EmptyString
  | String c rest => String (lower_ascii c) (str_lower rest)
  end.

(** [obj.lower()]: a str method. *)
Definition py_lower (obj : value) : result string :=
  match obj with
  | VStr s => Ok (str_lower s)
  | _ => Raise AttributeError
  end.

(** [any(p(x) for x in l)], stopping at the first hit. *)
Fixpoint any_m (p : value -> result bool) (l : list value) : result bool :=
  match l with
  | [] => Ok false
  | x :: rest =>
      let? b := p x in
      if b then Ok true else any_m p rest
  end.

(** [[x for x in l if p(x)]] *)
Fixpoint filter_m (p : value -> result bool) (l : list value) : result (list value) :=
  match l with
  | [] => Ok []
  | x :: rest =>
      let? b := p x in
      let? kept := filter_m p rest in
      Ok (if b then x :: kept else kept)
  end.

(** [dict.setdefault(key, v)] *)
Definition setdefault (key : string) (v : value) (d : pydict) : pydict :=
  match d !! key with
  | Some _ => d
  | None => <[key := v]> d
  end.

(** The [meta] dict literal built by [list_recipes]; [None] is [option]'s
    [None]. *)
Record Meta : Type := mkMeta {
  total : Z;
  total_pages : Z;
  first_page : Z;
  last_page : Z;
  page : Z;
  previous_page : option Z;
  next_page : option Z;
  page_size : Z
}.

(** ** storage.py *)

Definition default_document : value :=
  VDict {[ "recipes" := VList []; "next_id" := VInt 1 ]}.

Definition os_path_exists : M bool :=
  let* f := get_file in
  ret (match f with Absent => false | _ => true end).

(** [json.load(open(_STORAGE_FILE))] *)
Definition json_load : M value :=
  let* f := get_file in
  match f with
  | Decoded v => ret v
  | _ => raise ValueError
  end.

Definition _read_file : M value :=
  let* present := os_path_exists in
  if negb present then ret default_document
  else
    try_except
      (let* data := json_load in
       let* has_recipes := lift (py_contains_str "recipes" data) in
       if negb has_recipes then ret default_document
       else
         let* has_next_id := lift (py_contains_str "next_id" data) in
         if negb has_next_id then ret default_document
         else ret data)
      (ret default_document).

(** [json.dump] to the temporary file, then [os.replace]: the store file
    now decodes to [data].  Every [value] is taken to be one that
    [json.dump] can encode; a call on an object it cannot encode raises
    before [os.replace] and is outside this model, so what is proved of
    [create_recipe] and [update_recipe] is proved of calls that
    returned. *)
Definition _write_file (data : value) : M unit :=
  put_file (Decoded data).

Section Storage.

(** [time_time k] is what [int(time.time())] returns at the [k]-th reading
    of the clock. *)
Variable time_time : nat -> Z.

(** Python's [int(s)] on a str: [None] when it raises [ValueError]. *)
Variable int_of_str : string -> option Z.

Definition int_time : M Z :=
  fun w => (Ok (time_time (ticks w)), mkWorld (file w) (sessions w) (S (ticks w))).

(** [int(x)] *)
Definition py_int (x : value) : result Z :=
  match x with
  | VInt z => Ok z
  | VBool b => Ok (Z.b2z b)
  | VStr s => match int_of_str s with
              | Some z => Ok z
              | None => Raise ValueError
              end
  | VNone | VList _ | VDict _ => Raise TypeError
  end.

Definition _normalize_recipe (recipe : pydict) : M pydict :=
  let recipe := setdefault "id" VNone recipe in
  let recipe := setdefault "title" (VStr "") recipe in
  let recipe := setdefault "description" (VStr "") recipe in
  let recipe := setdefault "ingredients" (VList []) recipe in
  let recipe := setdefault "instructions" (VStr "") recipe in
  let recipe := setdefault "tags" (VList []) recipe in
  let* t := int_time in
  let recipe := setdefault "created_at" (VInt t) recipe in
  let* t := int_time in
  let recipe := setdefault "updated_at" (VInt t) recipe in
  ret recipe.

(** [il in (ing or "").lower()] *)
Definition ingredient_contains (il : string) (ing : value) : result bool :=
  let? s := py_lower (py_or ing (VStr "")) in
  Ok (is_substring il s).

(** [any(il in (ing or "").lower() for ing in r.get("ingredients", []))] *)
Definition any_ingredient (il : string) (r : value) : result bool :=
  let? ings := py_get r "ingredients" (VList []) in
  let? it := py_iter ings in
  any_m (ingredient_contains il) it.

(** The condition of the first comprehension; [or] does not evaluate its
    right operand when the title matches. *)
Definition query_keeps (ql : string) (r : value) : result bool :=
  let? title := py_get r "title" VNone in
  let? tl := py_lower (py_or title (VStr "")) in
  if is_substring ql tl then Ok true else any_ingredient ql r.

(** [if q:] on an [Optional[str]] *)
Definition opt_truthy (q : option string) : bool :=
  match q with
  | Some s => negb (String.eqb s "")
  | None => false
  end.

Definition comprehension (p : value -> result bool) (recipes : value) : result value :=
  let? it := py_iter recipes in
  let? kept := filter_m p it in
  Ok (VList kept).

Definition list_recipes (q ingredient : option string) (page page_size : Z)
  : M (value * Meta) :=
  let* data := _read_file in
  let* recipes := lift (py_getitem_str data "recipes") in
  let* recipes :=
    match q with
    | Some qs =>
        if opt_truthy q
        then lift (comprehension (query_keeps (str_lower qs)) recipes)
        else ret recipes
    | None => ret recipes
    end in
  let* recipes :=
    match ingredient with
    | Some ing =>
        if opt_truthy ingredient
        then lift (comprehension (any_ingredient (str_lower ing)) recipes)
        else ret recipes
    | None => ret recipes
    end in
  let* total := lift (py_len recipes) in
  let page := Z.max 1 page in
  let page_size := Z.min (Z.max 1 page_size) 100 in
  let start := (page - 1) * page_size in
  let end_ := start + page_size in
  let* items := lift (py_slice recipes start end_) in
  let total_pages :=
    if negb (page_size =? 0) then (total + page_size - 1) / page_size else 1 in
  ret (items,
       {| total := total;
          total_pages := total_pages;
          first_page := 1;
          last_page := if total_pages >? 0 then total_pages else 1;
          page := page;
          previous_page := if page >? 1 then Some (page - 1) else None;
          next_page := if end_ <? total then Some (page + 1) else None;
          page_size := page_size |}).

(** The loop of [get_recipe] over the elements of [data["recipes"]]. *)
Fixpoint get_loop (recipe_id : Z) (rest : list value) : result (option value) :=
  match rest with
  | [] => Ok None
  | r :: rest' =>
      let? rid := py_get r "id" VNone in
      if py_eq_int rid recipe_id then Ok (Some r) else get_loop recipe_id rest'
  end.

Definition get_recipe (recipe_id : Z) : M (option value) :=
  let* data := _read_file in
  let* recipes := lift (py_getitem_str data "recipes") in
  let* it := lift (py_iter recipes) in
  lift (get_loop recipe_id it).

Definition create_recipe (recipe : pydict) : M pydict :=
  let* data := _read_file in
  let* recipe := _normalize_recipe recipe in
  let* next_id := lift (py_get data "next_id" (VInt 1)) in
  let* id := lift (py_int next_id) in
  let recipe := <["id" := VInt id]> recipe in
  let* now := int_time in
  let recipe := <["created_at" := VInt now]> recipe in
  let recipe := <["updated_at" := VInt now]> recipe in
  let* recipes := lift (py_getitem_str data "recipes") in
  let* recipes := lift (py_append recipes (VDict recipe)) in
  let* data := lift (py_setitem_str data "recipes" recipes) in
  let* data := lift (py_setitem_str data "next_id" (VInt (id + 1))) in
  let* _ := _write_file data in
  ret recipe.

Definition mutable_fields : list string :=
  ["title"; "description"; "ingredients"; "instructions"; "tags"].

(** [{k: v for k, v in updates.items() if k in {...}}] *)
Definition mutable_updates (updates : pydict) : pydict :=
  filter (fun kv => fst kv ∈ mutable_fields) updates.

(** The loop of [update_recipe]: [rest] is what is left to enumerate, [i]
    the index of its head.  [r.update(u)] lets the entries of [u] win over
    those of [r]. *)
Fixpoint update_loop (recipe_id : Z) (updates : pydict) (data recipes : value)
    (i : nat) (rest : list value) : M (option value) :=
  match rest with
  | [] => ret None
  | r :: rest' =>
      let* rid := lift (py_get r "id" VNone) in
      if py_eq_int rid recipe_id then
        match r with
        | VDict d =>
            let d := mutable_updates updates ∪ d in
            let* now := int_time in
            let d := <["updated_at" := VInt now]> d in
            let* d := _normalize_recipe d in
            let* recipes := lift (py_setitem_nat recipes i (VDict d)) in
            let* data := lift (py_setitem_str data "recipes" recipes) in
            let* _ := _write_file data in
            ret (Some (VDict d))
        | _ => raise AttributeError
        end
      else update_loop recipe_id updates data recipes (S i) rest'
  end.

Definition update_recipe (recipe_id : Z) (updates : pydict) : M (option value) :=
  let* data := _read_file in
  let* recipes := lift (py_getitem_str data "recipes") in
  let* it := lift (py_iter recipes) in
  update_loop recipe_id updates data recipes 0 it.

(** [r.get("id") != recipe_id] *)
Definition id_differs (recipe_id : Z) (r : value) : result bool :=
  let? rid := py_get r "id" VNone in
  Ok (negb (py_eq_int rid recipe_id)).

Definition delete_recipe (recipe_id : Z) : M bool :=
  let* data := _read_file in
  let* recipes := lift (py_getitem_str data "recipes") in
  let* before := lift (py_len recipes) in
  let* kept := lift (comprehension (id_differs recipe_id) recipes) in
  let* data := lift (py_setitem_str data "recipes" kept) in
  let* after := lift (py_len kept) in
  if after <? before then
    let* _ := _write_file data in
    ret true
  else ret false.

(** *** The session registry *)

(** [f"token_{user_id}_{int(time.time())}"]; [pretty] prints an integer in
    decimal, as [str] does. *)
Definition make_token (user_id : string) (t : Z) : string :=
  String.append "token_" (String.append user_id (String.append "_" (pretty t))).

Definition create_session (user_id user_name : string) : M string :=
  let* t := int_time in
  let token := make_token user_id t in
  let* created := int_time in
  let* s := get_sessions in
  let* _ := put_sessions (<[token := mkSession user_id user_name created]> s) in
  ret token.

Definition get_session (token : string) : M (option Session) :=
  let* s := get_sessions in
  ret (s !! token).

Definition delete_session (token : string) : M unit :=
  let* s := get_sessions in
  put_sessions (delete token s).

End Storage.

(** ** Vocabulary of the statements *)

(** Some stretch of [s] has the same lower-case form as [x]: what a
    substring test on lower-cased strings decides. *)
Definition ci_substring (x s : string) : Prop :=
  exists pre mid post,
    s = String.append pre (String.append mid post) /\ str_lower mid = str_lower x.

(** What the source computes for it. *)
Definition ci_contains (x s : string) : bool :=
  is_substring (str_lower x) (str_lower s).

(** The letters, each upper-case form paired with its lower-case form. *)
Definition letter_pairs : list (ascii * ascii) :=
  combine (list_ascii_of_string "ABCDEFGHIJKLMNOPQRSTUVWXYZ")
          (list_ascii_of_string "abcdefghijklmnopqrstuvwxyz").

(** Two characters that are the same up to case: one and the same
    character, or the two forms of one letter. *)
Definition same_letter (a b : ascii) : Prop :=
  a = b \/ In (a, b) letter_pairs \/ In (b, a) letter_pairs.

(** Two texts that are the same up to the case of their letters. *)
Inductive same_text : string -> string -> Prop :=
  | same_text_empty : same_text "" ""
  | same_text_cons a b s t :
      same_letter a b -> same_text s t -> same_text (String a s) (String b t).

(** "[x] occurs in [s] as a case-insensitive substring": some stretch of
    [s] is [x] up to the case of its letters.  Said without any
    lower-casing, so that it can be set against what the code computes. *)
Definition occurs_ignoring_case (x s : string) : Prop :=
  exists pre mid post,
    s = String.append pre (String.append mid post) /\ same_text mid x.

(** Text of ASCII characters only. *)
Definition is_ascii (s : string) : bool :=
  forallb (fun c => (N_of_ascii c <? 128)%N) (list_ascii_of_string s).

(** Deciding [same_letter], and the characters to decide it on. *)
Definition same_letter_b (a b : ascii) : bool :=
  Ascii.eqb a b
  || existsb (fun p => Ascii.eqb (fst p) a && Ascii.eqb (snd p) b) letter_pairs
  || existsb (fun p => Ascii.eqb (fst p) b && Ascii.eqb (snd p) a) letter_pairs.

Definition all_ascii : list ascii := List.map ascii_of_nat (seq 0 256).

Definition as_str (v : value) : option string :=
  match v with
  | VStr s => Some s
  | _ => None
  end.

(** The title and the ingredients of a recipe shaped as the persisted file
    format says: a dict whose [title] is a str and whose [ingredients] is a
    list of strs. *)
Definition texts (r : value) : option (string * list string) :=
  match r with
  | VDict d =>
      match d !! "title", d !! "ingredients" with
      | Some (VStr t), Some (VList l) =>
          match mapM as_str l with
          | Some ings => Some (t, ings)
          | None => None
          end
      | _, _ => None
      end
  | _ => None
  end.

(** The integer [id] of a recipe dict. *)
Definition id_of (r : value) : option Z :=
  match r with
  | VDict d =>
      match d !! "id" with
      | Some (VInt i) => Some i
      | _ => None
      end
  | _ => None
  end.

(** A recipe of the file format whose title and ingredients are ASCII
    text. *)
Definition ascii_texts (r : value) : bool :=
  match texts r with
  | Some (t, ings) => is_ascii t && forallb is_ascii ings
  | None => false
  end.

(** The two filters in the spec's words, on the typed view. *)
Definition matches_query (q : string) (r : value) : bool :=
  match texts r with
  | Some (t, ings) => ci_contains q t || existsb (ci_contains q) ings
  | None => false
  end.

Definition has_ingredient (x : string) (r : value) : bool :=
  match texts r with
  | Some (_, ings) => existsb (ci_contains x) ings
  | None => false
  end.

(** The filtered sequence: a filter that is absent or empty keeps
    everything. *)
Definition filtered (q ingredient : option string) (rs : list value) : list value :=
  let rs :=
    match q with
    | Some qs => if opt_truthy q then List.filter (matches_query qs) rs else rs
    | None => rs
    end in
  match ingredient with
  | Some x => if opt_truthy ingredient then List.filter (has_ingredient x) rs else rs
  | None => rs
  end.

(** The page computed from the filtered sequence, for a page number and a
    page size that are already clamped. *)
Definition page_of (kept : list value) (p s : Z) : value * Meta :=
  let n := Z.of_nat (length kept) in
  let pages := if negb (s =? 0) then (n + s - 1) / s else 1 in
  (VList (slice_list kept ((p - 1) * s) ((p - 1) * s + s)),
   {| total := n;
      total_pages := pages;
      first_page := 1;
      last_page := if pages >? 0 then pages else 1;
      page := p;
      previous_page := if p >? 1 then Some (p - 1) else None;
      next_page := if (p - 1) * s + s <? n then Some (p + 1) else None;
      page_size := s |}).

(** "The decoded value lacks the recipes or next_id key": only a dict has
    keys. *)
Definition has_key (key : string) (v : value) : bool :=
  match v with
  | VDict d => match d !! key with Some _ => true | None => false end
  | _ => false
  end.

Definition lacks_a_key (v : value) : bool :=
  negb (has_key "recipes" v && has_key "next_id" v).

(** [r.get("id") == recipe_id] on a dict [r]. *)
Definition has_id (recipe_id : Z) (r : value) : bool :=
  match r with
  | VDict d => py_eq_int (match d !! "id" with Some v => v | None => VNone end) recipe_id
  | _ => false
  end.

Definition is_dict (r : value) : bool :=
  match r with
  | VDict _ => true
  | _ => false
  end.

(** The fields [_normalize_recipe] fills in. *)
Definition normalized_fields : list string :=
  ["id"; "title"; "description"; "ingredients"; "instructions"; "tags";
   "created_at"; "updated_at"].

(** What [_normalize_recipe] returns when the clock reads [t1], then [t2]. *)
Definition normalized (t1 t2 : Z) (recipe : pydict) : pydict :=
  setdefault "updated_at" (VInt t2)
    (setdefault "created_at" (VInt t1)
      (setdefault "tags" (VList [])
        (setdefault "instructions" (VStr "")
          (setdefault "ingredients" (VList [])
            (setdefault "description" (VStr "")
              (setdefault "title" (VStr "")
                (setdefault "id" VNone recipe))))))).

(** The ids are pairwise distinct and below the counter. *)
Definition ids_fresh (rs : list value) (n : Z) : Prop :=
  exists ids, mapM id_of rs = Some ids /\ NoDup ids /\ Forall (fun i => i < n) ids.

(** The invariant of the reachable states. *)
Definition store_inv (w : World) (d : pydict) (rs : list value) (n : Z) : Prop :=
  _read_file w = (Ok (VDict d), w) /\
  d !! "recipes" = Some (VList rs) /\
  d !! "next_id" = Some (VInt n) /\
  ids_fresh rs n.

(** An element the loops step over: a dict whose id is another one. *)
Definition other_recipe (recipe_id : Z) (r : value) : Prop :=
  is_dict r = true /\ has_id recipe_id r = false.

Section Derived.

Variable time_time : nat -> Z.
Variable int_of_str : string -> option Z.

(** The recipe [create_recipe] stores and returns for the input [recipe],
    when the document's counter is [n] and the clock is at tick [k]. *)
Definition created (recipe : pydict) (n : Z) (k : nat) : pydict :=
  let now := time_time (S (S k)) in
  <["updated_at" := VInt now]>
    (<["created_at" := VInt now]>
      (<["id" := VInt n]>
        (normalized (time_time k) (time_time (S k)) recipe))).

(** The states reachable by [create_recipe] calls from a store that reads
    as the default document. *)
Inductive reachable : World -> Prop :=
  | reach_default w :
      _read_file w = (Ok default_document, w) -> reachable w
  | reach_create w recipe res w' :
      reachable w ->
      create_recipe time_time int_of_str recipe w = (res, w') ->
      reachable w'.

(** The recipe [update_recipe] stores and returns for the stored recipe
    [r], when the clock is at tick [k]. *)
Definition updated (updates r : pydict) (k : nat) : pydict :=
  normalized (time_time (S k)) (time_time (S (S k)))
    (<["updated_at" := VInt (time_time k)]> (mutable_updates updates ∪ r)).

End Derived.

(** ** schemas.py *)

(** [x < n] and [x > n] for an [int] [n]: numbers compare, everything else
    raises [TypeError]. *)
Definition py_lt_int (x : value) (n : Z) : result bool :=
  match x with
  | VInt z => Ok (z <? n)
  | VBool b => Ok (Z.b2z b <? n)
  | _ => Raise TypeError
  end.

Definition py_gt_int (x : value) (n : Z) : result bool :=
  match x with
  | VInt z => Ok (n <? z)
  | VBool b => Ok (n <? Z.b2z b)
  | _ => Raise TypeError
  end.

(** What a schema validator does with its data: return, or raise
    [ValidationError(message, field_name=...)]. *)
Inductive validation : Type :=
  | Valid
  | ValidationError (message field_name : string).

(** [PaginationQuerySchema.validate_pagination] *)
Definition validate_pagination (data : pydict) : result validation :=
  let? page := py_get (VDict data) "page" (VInt 1) in
  let? page_size := py_get (VDict data) "page_size" (VInt 10) in
  let? page_low := py_lt_int page 1 in
  if page_low then Ok (ValidationError "page must be >= 1" "page")
  else
    let? size_low := py_lt_int page_size 1 in
    let? size_bad :=
      if size_low then Ok true else py_gt_int page_size 100 in
    if size_bad
    then Ok (ValidationError "page_size must be between 1 and 100" "page_size")
    else Ok Valid.

(** ** routes *)

(** What the body of a view function does: return a value, or leave
    through [abort(status, message=...)].  An exception of the storage
    layer that the view does not catch is the [Raise] of the monad.  The
    returned value is what the view hands to the response decorator of
    flask-smorest; the serialisation done there is not part of the
    model. *)
Inductive http (A : Type) : Type :=
  | Returned (body : A)
  | Aborted (status : Z) (message : string).
Arguments Returned {A} body.
Arguments Aborted {A} status message.

(** [if not x:] on an [Optional] object. *)
Definition opt_value_truthy (x : option value) : bool :=
  match x with
  | Some v => truthy v
  | None => false
  end.

(** [s.replace(old, new)] for a non-empty [old]: the occurrences of [old]
    are replaced from the left, without overlap.  [skip] counts the
    characters of a matched occurrence that are still to be dropped. *)
Fixpoint replace_from (old new : string) (skip : nat) (s : string) : string :=
  match s with
  | EmptyString => EmptyString
  | String c rest =>
      match skip with
      | S k => replace_from old new k rest
      | O =>
          if String.prefix old s
          then String.append new (replace_from old new (String.length old - 1) rest)
          else String c (replace_from old new 0 rest)
      end
  end.

(** For an empty [old], Python puts [new] before every character and at
    the end. *)
Fixpoint interleave (new s : string) : string :=
  match s with
  | EmptyString => new
  | String c rest => String.append new (String c (interleave new rest))
  end.

Definition str_replace (s old new : string) : string :=
  match old with
  | EmptyString => interleave new s
  | String _ _ => replace_from old new 0 s
  end.

(** [request.headers.get("Authorization", "").replace("Bearer ", "")] *)
Definition bearer_token (authorization : option string) : string :=
  str_replace (match authorization with Some h => h | None => "" end) "Bearer " "".

(** The user dict of the auth responses. *)
Definition user_body (id name : string) : value :=
  VDict {[ "id" := VStr id; "name" := VStr name ]}.

Section Routes.

Variable time_time : nat -> Z.
Variable int_of_str : string -> option Z.

(** *** routes/recipes.py *)

(** The body of [RecipesCollection.post] *)
Definition recipes_post (json_data : pydict) : M (http value) :=
  let* created := create_recipe time_time int_of_str json_data in
  ret (Returned (VDict {[ "success" := VBool true; "data" := VDict created ]})).

(** The body of [RecipeItem.get] *)
Definition recipe_item_get (recipe_id : Z) : M (http value) :=
  let* recipe := get_recipe recipe_id in
  if negb (opt_value_truthy recipe) then ret (Aborted 404 "Recipe not found")
  else
    match recipe with
    | Some r => ret (Returned (VDict {[ "success" := VBool true; "data" := r ]}))
    | None => ret (Aborted 404 "Recipe not found")
    end.

(** The body of [RecipeItem.put] *)
Definition recipe_item_put (json_data : pydict) (recipe_id : Z) : M (http value) :=
  let* updated := update_recipe time_time recipe_id json_data in
  if negb (opt_value_truthy updated) then ret (Aborted 404 "Recipe not found")
  else
    match updated with
    | Some r => ret (Returned (VDict {[ "success" := VBool true; "data" := r ]}))
    | None => ret (Aborted 404 "Recipe not found")
    end.

(** The body of [RecipeItem.delete] *)
Definition recipe_item_delete (recipe_id : Z) : M (http value) :=
  let* ok := delete_recipe recipe_id in
  if negb ok then ret (Aborted 404 "Recipe not found")
  else ret (Returned (VDict {[ "success" := VBool true ]})).

(** *** routes/auth.py *)

(** [Login.post]; [username] is [json_data["username"]], which
    [AuthLoginSchema] makes a str. *)
Definition login_post (username : string) : M (http value) :=
  let* token := create_session time_time username username in
  ret (Returned (VDict {[ "success" := VBool true;
                          "token" := VStr token;
                          "user" := user_body username username ]})).

(** [Logout.post], given the Authorization header of the request. *)
Definition logout_post (authorization : option string) : M (http value) :=
  let token := bearer_token authorization in
  if negb (truthy (VStr token))
  then ret (Aborted 400 "Missing Authorization Bearer token")
  else
    let* _ := delete_session token in
    ret (Returned (VDict {[ "success" := VBool true ]})).

(** [Me.get], given the Authorization header of the request; a session
    record is a dict of three entries and so always true. *)
Definition me_get (authorization : option string) : M (http value) :=
  let token := bearer_token authorization in
  if negb (truthy (VStr token)) then ret (Aborted 401 "Unauthorized")
  else
    let* sess := get_session token in
    match sess with
    | None => ret (Aborted 401 "Unauthorized")
    | Some sess =>
        ret (Returned (VDict {[ "success" := VBool true;
                                "user" := user_body (user_id sess) (name sess) ]}))
    end.

(** *** Sequences of repository calls *)

(** The states reachable from a store that reads as the default document
    by [create_recipe], [update_recipe] and [delete_recipe] calls, whatever
    they return. *)
Inductive reachable_by_mutations : World -> Prop :=
  | mut_default w :
      _read_file w = (Ok default_document, w) -> reachable_by_mutations w
  | mut_create w recipe res w' :
      reachable_by_mutations w ->
      create_recipe time_time int_of_str recipe w = (res, w') ->
      reachable_by_mutations w'
  | mut_update w recipe_id updates res w' :
      reachable_by_mutations w ->
      update_recipe time_time recipe_id updates w = (res, w') ->
      reachable_by_mutations w'
  | mut_delete w recipe_id res w' :
      reachable_by_mutations w ->
      delete_recipe recipe_id w = (res, w') ->
      reachable_by_mutations w'.

End Routes.

(** The items of a [list_recipes] result, [[]] when there is none. *)
Definition items_of (x : result (value * Meta) * World) : list value :=
  match fst x with
  | Ok (VList items, _) => items
  | _ => []
  end.

(** The [total_pages] of a [list_recipes] result. *)
Definition pages_of (x : result (value * Meta) * World) : Z :=
  match fst x with
  | Ok (_, meta) => total_pages meta
  | Raise _ => 0
  end.

(** Whether a character occurs in a string. *)
Fixpoint has_char (c : ascii) (s : string) : bool :=
  match s with
  | EmptyString => false
  | String c' rest => Ascii.eqb c c' || has_char c rest
  end.

(** The defaults of the fields that do not depend on the clock. *)
Definition field_defaults : list (string * value) :=
  [("id", VNone); ("title", VStr ""); ("description", VStr "");
   ("ingredients", VList []); ("instructions", VStr ""); ("tags", VList [])].

(** An operation that leaves the whole state as it found it. *)
Definition stateless {A} (m : M A) : Prop :=
  forall w, snd (m w) = w.

(** An operation that may read the clock but leaves the store file and the
    session registry as it found them. *)
Definition quiet {A} (m : M A) : Prop :=
  forall w, file (snd (m w)) = file w /\ sessions (snd (m w)) = sessions w.

(** An operation that leaves the store file and the session registry as it
    found them whenever it raises or returns a result outside [ok]. *)
Definition clean_unless {A} (ok : A -> bool) (m : M A) : Prop :=
  forall w res w',
    m w = (res, w') ->
    (forall a, res = Ok a -> ok a = false) ->
    file w' = file w /\ sessions w' = sessions w.

(** Whether a non-empty string ends with a given character. *)
Fixpoint last_is (c : ascii) (s : string) : bool :=
  match s with
  | EmptyString => false
  | String a EmptyString => Ascii.eqb c a
  | String _ rest => last_is c rest
  end.

(** ** Sample data *)

(** A clock that advances one second per reading, and one that stands
    still. *)
Definition sample_clock (k : nat) : Z := 1700000000 + Z.of_nat k.
Definition frozen_clock (k : nat) : Z := 1700000000.

(** A stand-in for [int] on a str that rejects every string; the samples
    never store a str counter. *)
Definition sample_int_of_str (s : string) : option Z := None.

Definition soup_fields : pydict :=
  {[ "id" := VInt 1;
     "title" := VStr "Tomato Soup";
     "description" := VStr "";
     "ingredients" := VList [VStr "tomato"; VStr "basil"];
     "instructions" := VStr "Simmer.";
     "tags" := VList [VStr "soup"];
     "created_at" := VInt 1700000000;
     "updated_at" := VInt 1700000000 ]}.

Definition salad_fields : pydict :=
  {[ "id" := VInt 2;
     "title" := VStr "Greek Salad";
     "description" := VStr "";
     "ingredients" := VList [VStr "Cucumber"; VStr "feta"; VStr "Tomato"];
     "instructions" := VStr "Chop.";
     "tags" := VList [];
     "created_at" := VInt 1700000100;
     "updated_at" := VInt 1700000100 ]}.

Definition sample_recipes : list value := [VDict soup_fields; VDict salad_fields].

Definition sample_document : pydict :=
  {[ "recipes" := VList sample_recipes; "next_id" := VInt 3 ]}.

Definition sample_world : World := mkWorld (Decoded (VDict sample_document)) ∅ 0.

Definition empty_world : World := mkWorld Absent ∅ 0.

(** A store whose [recipes] entry is a str instead of a list. *)
Definition broken_world : World :=
  mkWorld (Decoded (VDict {[ "recipes" := VStr "oops"; "next_id" := VInt 1 ]})) ∅ 0.

(** * Properties *)

(** Membership of a literal key in a literal list of keys. *)
Ltac by_decide := refine (bool_decide_unpack _ _); vm_compute; exact I.

(** ** The model on small inputs *)

Example str_lower_folds : str_lower "Tomato Soup [Z]" = "tomato soup [z]".
Proof. reflexivity. Qed.

Example substring_found : is_substring "mat" "tomato" = true.
Proof. reflexivity. Qed.

Example substring_missing : is_substring "pasta" "tomato soup" = false.
Proof. reflexivity. Qed.

Example slice_inside : slice_list [1; 2; 3; 4; 5] 1 3 = [2; 3].
Proof. reflexivity. Qed.

Example slice_past_the_end : slice_list [1; 2; 3; 4; 5] 3 13 = [4; 5].
Proof. reflexivity. Qed.

Example slice_out_of_range : slice_list [1; 2; 3; 4; 5] 10 20 = [].
Proof. reflexivity. Qed.

Example token_shape : make_token "bob" 1700000000 = "token_bob_1700000000".
Proof. reflexivity. Qed.

Example read_missing_file : fst (_read_file empty_world) = Ok default_document.
Proof. reflexivity. Qed.

Example list_sample_by_query :
  fst (list_recipes (Some "TOMATO") None 1 10 sample_world) =
    Ok (VList sample_recipes,
        mkMeta 2 1 1 1 1 None None 10).
Proof. vm_compute. reflexivity. Qed.

Example list_sample_by_ingredient :
  fst (list_recipes None (Some "Feta") 1 10 sample_world) =
    Ok (VList [VDict salad_fields],
        mkMeta 1 1 1 1 1 None None 10).
Proof. vm_compute. reflexivity. Qed.

Example get_sample_recipe :
  fst (get_recipe 2 sample_world) = Ok (Some (VDict salad_fields)).
Proof. vm_compute. reflexivity. Qed.

Example ids_are_not_reused :
  fst (bind (delete_recipe 2)
         (fun _ => bind (create_recipe sample_clock sample_int_of_str ∅)
                     (fun r => ret (r !! "id"))) sample_world)
    = Ok (Some (VInt 3)).
Proof. vm_compute. reflexivity. Qed.

(** ** Running the monad *)

Lemma bind_run {A B} (m : M A) (k : A -> M B) w a w' :
  m w = (Ok a, w') -> bind m k w = k a w'.
Proof. intros H. unfold bind. now rewrite H. Qed.

Lemma bind_lift_Ok {A B} (a : A) (k : A -> M B) w :
  bind (lift (Ok a)) k w = k a w.
Proof. reflexivity. Qed.

Lemma bind_ret {A B} (a : A) (k : A -> M B) w :
  bind (ret a) k w = k a w.
Proof. reflexivity. Qed.

Lemma bind_lift_run {A B} (r : result A) (k : A -> M B) w a :
  r = Ok a -> bind (lift r) k w = k a w.
Proof. now intros ->. Qed.

(** ** The store file *)

(** [_read_file] never changes the state. *)
Lemma read_file_state w : snd (_read_file w) = w.
Proof.
  unfold _read_file, bind, os_path_exists, get_file, ret, try_except, json_load,
    raise, lift.
  destruct w as [f s t]; destruct f as [| |v]; simpl; try reflexivity.
  destruct (py_contains_str "recipes" v) as [[|]|]; simpl; try reflexivity.
  destruct (py_contains_str "next_id" v) as [[|]|]; reflexivity.
Qed.

(** [_read_file] never raises. *)
Lemma read_file_total w : exists data, _read_file w = (Ok data, w).
Proof.
  unfold _read_file, bind, os_path_exists, get_file, ret, try_except, json_load,
    raise, lift.
  destruct w as [f s t]; destruct f as [| |v]; simpl; eauto.
  destruct (py_contains_str "recipes" v) as [[|]|]; simpl; eauto.
  destruct (py_contains_str "next_id" v) as [[|]|]; simpl; eauto.
Qed.

Lemma read_file_absent w : file w = Absent -> _read_file w = (Ok default_document, w).
Proof.
  intros H. destruct w as [f s t]; simpl in H; subst f. reflexivity.
Qed.

Lemma read_file_undecodable w :
  file w = Undecodable -> _read_file w = (Ok default_document, w).
Proof.
  intros H. destruct w as [f s t]; simpl in H; subst f. reflexivity.
Qed.

Lemma read_file_decoded w v :
  file w = Decoded v ->
  _read_file w =
    (Ok (match py_contains_str "recipes" v, py_contains_str "next_id" v with
         | Ok true, Ok true => v
         | _, _ => default_document
         end), w).
Proof.
  intros H. destruct w as [f s t]; simpl in H; subst f.
  unfold _read_file, bind, os_path_exists, get_file, ret, try_except,
    json_load, raise, lift; simpl.
  destruct (py_contains_str "recipes" v) as [[|]|]; simpl; try reflexivity.
  destruct (py_contains_str "next_id" v) as [[|]|]; reflexivity.
Qed.

Lemma read_file_dict w d :
  file w = Decoded (VDict d) ->
  is_Some (d !! "recipes") -> is_Some (d !! "next_id") ->
  _read_file w = (Ok (VDict d), w).
Proof.
  intros H [x Hx] [y Hy]. rewrite (read_file_decoded w _ H).
  unfold py_contains_str. now rewrite Hx, Hy.
Qed.

Lemma write_file_run data w :
  _write_file data w = (Ok tt, mkWorld (Decoded data) (sessions w) (ticks w)).
Proof. reflexivity. Qed.

(** ** Strings: substrings and case folding *)

Lemma prefix_spec (a b : string) :
  String.prefix a b = true <-> exists post, b = String.append a post.
Proof.
  revert b; induction a as [|c a IH]; intros b.
  - split; [intros _; now exists b | intros _; now destruct b].
  - destruct b as [|c' b]; simpl.
    + split; [discriminate | intros [post H]; discriminate].
    + destruct (Ascii.ascii_dec c c') as [->|Hne].
      * rewrite IH. split; intros [post H]; exists post.
        -- now rewrite H.
        -- now injection H.
      * split; [discriminate | intros [post H]; injection H; congruence].
Qed.

(** [is_substring] finds exactly the strings that occur somewhere in [hay]. *)
Lemma is_substring_spec (needle hay : string) :
  is_substring needle hay = true <->
  exists pre post, hay = String.append pre (String.append needle post).
Proof.
  induction hay as [|c hay IH].
  - destruct needle as [|c n]; simpl.
    + split; [intros _; now exists EmptyString, EmptyString | reflexivity].
    + split; [discriminate | intros (pre & post & H); destruct pre; discriminate].
  - change (is_substring needle (String c hay))
      with (String.prefix needle (String c hay) || is_substring needle hay).
    rewrite orb_true_iff, prefix_spec, IH. split.
    + intros [[post H] | [pre [post H]]].
      * now exists EmptyString, post.
      * exists (String c pre), post. simpl. now rewrite H.
    + intros [pre [post H]]. destruct pre as [|c' pre]; simpl in H.
      * left. eauto.
      * right. injection H as _ H. eauto.
Qed.

Lemma str_lower_app (a b : string) :
  str_lower (String.append a b) = String.append (str_lower a) (str_lower b).
Proof. induction a as [|c a IH]; simpl; [reflexivity | now rewrite IH]. Qed.

Lemma str_lower_split (s a b : string) :
  str_lower s = String.append a b ->
  exists s1 s2, s = String.append s1 s2 /\ str_lower s1 = a /\ str_lower s2 = b.
Proof.
  revert s; induction a as [|c a IH]; intros s H; simpl in H.
  - now exists EmptyString, s.
  - destruct s as [|c' s]; simpl in H; [discriminate|].
    injection H as Hc H. destruct (IH s H) as (s1 & s2 & -> & <- & <-).
    exists (String c' s1), s2. simpl. now rewrite Hc.
Qed.

Lemma ci_contains_spec (x s : string) :
  ci_contains x s = true <-> ci_substring x s.
Proof.
  unfold ci_contains, ci_substring. rewrite is_substring_spec. split.
  - intros (pre & post & H).
    apply str_lower_split in H as (s1 & s2 & -> & <- & H).
    apply str_lower_split in H as (s3 & s4 & -> & H & <-).
    now exists s1, s3, s4.
  - intros (pre & mid & post & -> & H).
    exists (str_lower pre), (str_lower post).
    now rewrite !str_lower_app, H.
Qed.

Lemma all_ascii_complete (a : ascii) : In a all_ascii.
Proof.
  unfold all_ascii. rewrite <- (ascii_nat_embedding a).
  apply in_map, in_seq. pose proof (nat_ascii_bounded a). lia.
Qed.

Lemma same_letter_b_spec (a b : ascii) :
  same_letter_b a b = true <-> same_letter a b.
Proof.
  unfold same_letter_b, same_letter.
  rewrite !orb_true_iff, Ascii.eqb_eq, !existsb_exists.
  assert (Hpair : forall u v,
            (exists p, In p letter_pairs /\
                       Ascii.eqb (fst p) u && Ascii.eqb (snd p) v = true)
            <-> In (u, v) letter_pairs).
  { intros u v. split.
    - intros ([u' v'] & Hin & H). apply andb_true_iff in H as [Hu Hv].
      apply Ascii.eqb_eq in Hu, Hv. simpl in Hu, Hv. now subst.
    - intros Hin. exists (u, v). split; [exact Hin|]. simpl.
      now rewrite !Ascii.eqb_refl. }
  rewrite !Hpair. tauto.
Qed.

(** The folding of the code identifies two characters exactly when they
    are the same letter up to case. *)
Lemma lower_ascii_same_letter (a b : ascii) :
  lower_ascii a = lower_ascii b <-> same_letter a b.
Proof.
  rewrite <- same_letter_b_spec, <- Ascii.eqb_eq.
  assert (Htable : forallb (fun u => forallb (fun v =>
            Bool.eqb (Ascii.eqb (lower_ascii u) (lower_ascii v)) (same_letter_b u v))
              all_ascii) all_ascii = true)
    by (vm_compute; reflexivity).
  rewrite forallb_forall in Htable.
  specialize (Htable a (all_ascii_complete a)).
  rewrite forallb_forall in Htable.
  specialize (Htable b (all_ascii_complete b)).
  apply Bool.eqb_prop in Htable. now rewrite Htable.
Qed.

Lemma str_lower_same_text (s t : string) :
  str_lower s = str_lower t <-> same_text s t.
Proof.
  split.
  - revert t; induction s as [|a s IH]; intros [|b t] H; simpl in H;
      try discriminate; [constructor|].
    injection H as Hab H. constructor; [now apply lower_ascii_same_letter | now apply IH].
  - induction 1 as [|a b s t Hab _ IH]; [reflexivity|].
    simpl. apply lower_ascii_same_letter in Hab. now rewrite Hab, IH.
Qed.

Lemma ci_substring_occurs (x s : string) :
  ci_substring x s <-> occurs_ignoring_case x s.
Proof.
  unfold ci_substring, occurs_ignoring_case.
  split; intros (pre & mid & post & Hs & H); exists pre, mid, post;
    (split; [exact Hs | now apply str_lower_same_text]).
Qed.

(** The substring test of the code, on lower-cased strings, decides
    case-insensitive occurrence. *)
Lemma ci_contains_occurs (x s : string) :
  ci_contains x s = true <-> occurs_ignoring_case x s.
Proof. now rewrite ci_contains_spec, ci_substring_occurs. Qed.

Example occurs_despite_case : occurs_ignoring_case "SOUP" "Tomato Soup".
Proof.
  exists "Tomato ", "Soup", "". split; [reflexivity|].
  constructor; [now left|].
  repeat (constructor;
          [right; right; cbv; repeat (first [left; reflexivity | right])|]).
  constructor.
Qed.

Example occurs_needs_the_letters : ~ occurs_ignoring_case "pasta" "Tomato Soup".
Proof. rewrite <- ci_contains_occurs. discriminate. Qed.

Lemma existsb_ci_occurs (x : string) (l : list string) :
  existsb (ci_contains x) l = true <-> exists i, In i l /\ occurs_ignoring_case x i.
Proof.
  rewrite existsb_exists.
  split; intros (i & Hi & H); exists i; split; try exact Hi;
    now apply ci_contains_occurs.
Qed.

Lemma ascii_texts_typed (r : value) : ascii_texts r = true -> is_Some (texts r).
Proof. unfold ascii_texts. destruct (texts r); [eauto | discriminate]. Qed.

(** ** Filtering *)

Lemma list_filter_sublist {A} (f : A -> bool) (l : list A) :
  sublist (List.filter f l) l.
Proof.
  induction l as [|a l IH]; simpl; [constructor|].
  destruct (f a); [now apply sublist_skip | now apply sublist_cons].
Qed.

Lemma filter_m_ok (p : value -> result bool) (f : value -> bool) (l : list value) :
  Forall (fun x => p x = Ok (f x)) l -> filter_m p l = Ok (List.filter f l).
Proof.
  induction 1 as [|x l Hx _ IH]; simpl; [reflexivity|].
  rewrite Hx; simpl. rewrite IH; simpl. now destruct (f x).
Qed.

Lemma any_m_ok (p : value -> result bool) (f : value -> bool) (l : list value) :
  Forall (fun x => p x = Ok (f x)) l -> any_m p l = Ok (existsb f l).
Proof.
  induction 1 as [|x l Hx _ IH]; simpl; [reflexivity|].
  rewrite Hx; simpl. now destruct (f x).
Qed.

Lemma ingredient_contains_str (x s : string) :
  ingredient_contains (str_lower x) (VStr s) = Ok (ci_contains x s).
Proof.
  unfold ingredient_contains, py_or, ci_contains; simpl.
  destruct s; reflexivity.
Qed.

Lemma any_m_strs (x : string) (l : list value) (ings : list string) :
  mapM as_str l = Some ings ->
  any_m (ingredient_contains (str_lower x)) l = Ok (existsb (ci_contains x) ings).
Proof.
  revert ings; induction l as [|v l IH]; intros ings H; simpl in H.
  - injection H as <-. reflexivity.
  - destruct v; simpl in H; try discriminate.
    destruct (mapM as_str l) as [ings'|]; simpl in H; [|discriminate].
    injection H as <-. simpl. rewrite ingredient_contains_str; simpl.
    rewrite (IH ings' eq_refl). now destruct (ci_contains x s).
Qed.

Lemma any_ingredient_typed (x : string) (r : value) :
  is_Some (texts r) ->
  any_ingredient (str_lower x) r = Ok (has_ingredient x r).
Proof.
  intros [[t ings] H]. unfold has_ingredient. rewrite H.
  destruct r as [| | | | |d]; simpl in H; try discriminate.
  unfold any_ingredient; simpl.
  destruct (d !! "title") as [[| | |t'| |]|]; try discriminate.
  destruct (d !! "ingredients") as [[| | | |l|]|]; try discriminate.
  destruct (mapM as_str l) as [ings'|] eqn:Hl; [|discriminate].
  injection H as _ <-. simpl. now apply any_m_strs.
Qed.

Lemma query_keeps_typed (q : string) (r : value) :
  is_Some (texts r) ->
  query_keeps (str_lower q) r = Ok (matches_query q r).
Proof.
  intros Hr. pose proof (any_ingredient_typed q r Hr) as Hany.
  destruct Hr as [[t ings] H].
  unfold matches_query, has_ingredient in *. rewrite H in *.
  destruct r as [| | | | |d]; simpl in H; try discriminate.
  unfold query_keeps; simpl.
  destruct (d !! "title") as [[| | |t'| |]|]; try discriminate.
  destruct (d !! "ingredients") as [[| | | |l|]|]; try discriminate.
  destruct (mapM as_str l) as [ings'|]; [|discriminate].
  injection H as <- <-.
  replace (py_lower (py_or (VStr t') (VStr ""))) with (Ok (str_lower t'))
    by (unfold py_or; simpl; now destruct t').
  simpl. fold (ci_contains q t'). destruct (ci_contains q t'); [reflexivity|].
  exact Hany.
Qed.

Lemma comprehension_typed (p : value -> result bool) (f : value -> bool)
    (rs : list value) :
  Forall (fun r => p r = Ok (f r)) rs ->
  comprehension p (VList rs) = Ok (VList (List.filter f rs)).
Proof.
  intros H. unfold comprehension; simpl. now rewrite (filter_m_ok p f rs H).
Qed.

Lemma filter_texts (f : value -> bool) (rs : list value) :
  Forall (fun r => is_Some (texts r)) rs ->
  Forall (fun r => is_Some (texts r)) (List.filter f rs).
Proof.
  rewrite !Forall_forall. intros H r Hr.
  apply H. rewrite list_elem_of_In in *. apply filter_In in Hr. tauto.
Qed.

(** On a store whose recipes are shaped as the file format says,
    [list_recipes] returns the page of the filtered sequence and leaves the
    state alone. *)
Lemma list_recipes_read w d rs q ingredient p s :
  _read_file w = (Ok (VDict d), w) ->
  d !! "recipes" = Some (VList rs) ->
  Forall (fun r => is_Some (texts r)) rs ->
  list_recipes q ingredient p s w =
    (Ok (page_of (filtered q ingredient rs) (Z.max 1 p) (Z.min (Z.max 1 s) 100)), w).
Proof.
  intros Hread Hrs Hty. unfold list_recipes.
  rewrite (bind_run _ _ _ _ _ Hread).
  unfold py_getitem_str. rewrite Hrs, bind_lift_Ok.
  set (rs1 := match q with
              | Some qs => if opt_truthy q then List.filter (matches_query qs) rs else rs
              | None => rs
              end).
  assert (Hty1 : Forall (fun r => is_Some (texts r)) rs1).
  { subst rs1. destruct q as [qs|]; [|assumption].
    destruct (opt_truthy (Some qs)); [now apply filter_texts | assumption]. }
  erewrite (bind_run _ _ w (VList rs1) w); cycle 1.
  { subst rs1. destruct q as [qs|]; [|reflexivity].
    destruct (opt_truthy (Some qs)); [|reflexivity].
    unfold lift. f_equal. apply comprehension_typed.
    eapply Forall_impl; [exact Hty|]. intros r Hr. now apply query_keeps_typed. }
  erewrite (bind_run _ _ w (VList (filtered q ingredient rs)) w); cycle 1.
  { unfold filtered. fold rs1. destruct ingredient as [x|]; [|reflexivity].
    destruct (opt_truthy (Some x)); [|reflexivity].
    unfold lift. f_equal. apply comprehension_typed.
    eapply Forall_impl; [exact Hty1|]. intros r Hr. now apply any_ingredient_typed. }
  reflexivity.
Qed.

Lemma list_recipes_run w d rs q ingredient p s :
  file w = Decoded (VDict d) ->
  d !! "recipes" = Some (VList rs) ->
  is_Some (d !! "next_id") ->
  Forall (fun r => is_Some (texts r)) rs ->
  list_recipes q ingredient p s w =
    (Ok (page_of (filtered q ingredient rs) (Z.max 1 p) (Z.min (Z.max 1 s) 100)), w).
Proof.
  intros Hf Hrs Hn Hty. apply (list_recipes_read w d); try assumption.
  apply read_file_dict; eauto.
Qed.

(** ** Pagination *)

Lemma firstn_min_length {A} (k : nat) (l : list A) :
  firstn (Nat.min k (length l)) l = firstn k l.
Proof.
  destruct (Nat.le_gt_cases k (length l)) as [H|H].
  - now rewrite Nat.min_l.
  - rewrite Nat.min_r by lia. now rewrite !firstn_all2 by lia.
Qed.

(** A slice with bounds [0 <= a] and [a + len] is "skip [a], take [len]";
    it is empty when [a] is past the end. *)
Lemma slice_list_window {A} (l : list A) (a len : Z) :
  0 <= a -> 0 <= len ->
  slice_list l a (a + len) = firstn (Z.to_nat len) (skipn (Z.to_nat a) l).
Proof.
  intros Ha Hlen. unfold slice_list, slice_bound.
  destruct (a <? 0) eqn:E1; [lia|]. destruct (a + len <? 0) eqn:E2; [lia|].
  destruct (Nat.le_gt_cases (length l) (Z.to_nat a)) as [H|H].
  - rewrite (Nat.min_r (Z.to_nat a)) by lia.
    rewrite !skipn_all2 by lia. now rewrite !firstn_nil.
  - rewrite (Nat.min_l (Z.to_nat a)) by lia.
    rewrite <- (firstn_min_length (Z.to_nat len)).
    f_equal. rewrite length_skipn. lia.
Qed.

Lemma ceil_div_bounds (n s : Z) :
  0 < s -> ((n + s - 1) / s - 1) * s < n <= (n + s - 1) / s * s.
Proof.
  intros Hs. pose proof (Z.div_mod (n + s - 1) s ltac:(lia)).
  pose proof (Z.mod_pos_bound (n + s - 1) s Hs). nia.
Qed.

(** C2: on every stored recipe sequence, for a page [p >= 1] and a page size
    [1 <= s <= 100], [list_recipes] paginates the filtered sequence in its
    existing order: the items are the window [(p-1)*s, p*s) of it (empty
    when out of range), [total] is the filtered count, [total_pages] is
    [ceil(total/s)], [first_page] is 1, [last_page] is [max(total_pages,1)],
    [previous_page] is [p-1] or none for [p = 1], [next_page] is [p+1] or
    none when the window ends at or past [total].  With 25 recipes and page
    size 10: three pages; page 1 has 10 items, next page 2 and no previous
    page; page 3 has 5 items, previous page 2 and no next page. *)
Theorem list_recipes_paginates w d rs q ingredient p s :
  file w = Decoded (VDict d) ->
  d !! "recipes" = Some (VList rs) ->
  is_Some (d !! "next_id") ->
  Forall (fun r => is_Some (texts r)) rs ->
  1 <= p -> 1 <= s <= 100 ->
  let kept := filtered q ingredient rs in
  let n := Z.of_nat (length kept) in
  exists items meta,
    list_recipes q ingredient p s w = (Ok (VList items, meta), w) /\
    items = firstn (Z.to_nat s) (skipn (Z.to_nat ((p - 1) * s)) kept) /\
    (n <= (p - 1) * s -> items = []) /\
    total meta = n /\
    (total_pages meta - 1) * s < n <= total_pages meta * s /\
    first_page meta = 1 /\
    last_page meta = Z.max (total_pages meta) 1 /\
    page meta = p /\ page_size meta = s /\
    previous_page meta = (if p =? 1 then None else Some (p - 1)) /\
    next_page meta = (if n <=? p * s then None else Some (p + 1)) /\
    (n = 25 -> s = 10 ->
       total_pages meta = 3 /\
       (p = 1 -> length items = 10%nat /\
                 next_page meta = Some 2 /\ previous_page meta = None) /\
       (p = 3 -> length items = 5%nat /\
                 next_page meta = None /\ previous_page meta = Some 2)).
Proof.
  intros Hf Hrs Hn Hty Hp Hs kept n.
  pose proof (list_recipes_run w d rs q ingredient p s Hf Hrs Hn Hty) as Hrun.
  rewrite (Z.max_r 1 p), (Z.max_r 1 s), (Z.min_l s 100) in Hrun by lia.
  fold kept in Hrun. unfold page_of in Hrun. fold n in Hrun.
  rewrite slice_list_window in Hrun by nia.
  replace (negb (s =? 0)) with true in Hrun
    by (symmetry; apply negb_true_iff, Z.eqb_neq; lia).
  set (items := firstn (Z.to_nat s) (skipn (Z.to_nat ((p - 1) * s)) kept)) in *.
  pose proof (ceil_div_bounds n s ltac:(lia)) as Hceil.
  set (pages := (n + s - 1) / s) in *.
  assert (Hlen : length items =
                 Nat.min (Z.to_nat s) (length kept - Z.to_nat ((p - 1) * s))).
  { subst items. now rewrite length_firstn, length_skipn. }
  eexists items, _. split; [exact Hrun|]. simpl.
  split; [reflexivity|].
  split.
  { intros Hout. apply length_zero_iff_nil. rewrite Hlen. subst n. lia. }
  split; [reflexivity|]. split; [exact Hceil|]. split; [reflexivity|].
  split.
  { rewrite Z.gtb_ltb. destruct (0 <? pages) eqn:E;
      [apply Z.ltb_lt in E | apply Z.ltb_ge in E]; nia. }
  split; [reflexivity|]. split; [reflexivity|].
  split.
  { rewrite Z.gtb_ltb. destruct (1 <? p) eqn:E1; destruct (p =? 1) eqn:E2;
      try reflexivity; lia. }
  split.
  { destruct ((p - 1) * s + s <? n) eqn:E1; destruct (n <=? p * s) eqn:E2;
      try reflexivity; lia. }
  intros Hn25 ->.
  assert (Hpages : pages = 3) by (subst pages; rewrite Hn25; reflexivity).
  split; [exact Hpages|].
  assert (Hk : length kept = 25%nat) by (subst n; lia).
  split; intros ->; rewrite Hlen, Hk, Hn25; repeat split; reflexivity.
Qed.

(** C4: [list_recipes] accepts every integer page and page size: the page
    is raised to at least 1, the page size is brought into [1, 100], and
    these clamped values are the ones the window is cut with and the ones
    reported in [meta.page] and [meta.page_size]. *)
Theorem list_recipes_clamps w d rs q ingredient p s :
  file w = Decoded (VDict d) ->
  d !! "recipes" = Some (VList rs) ->
  is_Some (d !! "next_id") ->
  Forall (fun r => is_Some (texts r)) rs ->
  let p' := Z.max 1 p in
  let s' := Z.min (Z.max 1 s) 100 in
  1 <= p' /\ 1 <= s' <= 100 /\
  (1 <= p -> p' = p) /\ (1 <= s <= 100 -> s' = s) /\
  exists items meta,
    list_recipes q ingredient p s w = (Ok (VList items, meta), w) /\
    page meta = p' /\ page_size meta = s' /\
    items = firstn (Z.to_nat s')
              (skipn (Z.to_nat ((p' - 1) * s')) (filtered q ingredient rs)) /\
    list_recipes q ingredient p' s' w = list_recipes q ingredient p s w.
Proof.
  intros Hf Hrs Hn Hty p' s'.
  split; [lia|]. split; [lia|]. split; [lia|]. split; [lia|].
  pose proof (list_recipes_run w d rs q ingredient p s Hf Hrs Hn Hty) as Hrun.
  pose proof (list_recipes_run w d rs q ingredient p' s' Hf Hrs Hn Hty) as Hrun'.
  fold p' s' in Hrun.
  replace (Z.max 1 p') with p' in Hrun' by lia.
  replace (Z.min (Z.max 1 s') 100) with s' in Hrun' by lia.
  rewrite Hrun, Hrun'. unfold page_of.
  rewrite slice_list_window by nia.
  eexists _, _. repeat split; reflexivity.
Qed.

(** C3: on a store whose titles and ingredients are ASCII text, with a
    non-empty ASCII query [q], [list_recipes] keeps exactly the recipes
    where [q] occurs, ignoring the case of letters, in the title or in some
    ingredient; with a non-empty ASCII ingredient filter [x] as well, it
    keeps of those only the recipes where [x] occurs, ignoring case, in
    some ingredient: the two filters act as a conjunction, the query
    first.  The recipe "Tomato Soup" with ingredients tomato and basil is
    kept for q = "tomato" with ingredient = "basil" and dropped for
    q = "pasta". *)
Theorem list_recipes_filters w d rs (q x : string) p s :
  file w = Decoded (VDict d) ->
  d !! "recipes" = Some (VList rs) ->
  is_Some (d !! "next_id") ->
  Forall (fun r => ascii_texts r = true) rs ->
  is_ascii q = true -> is_ascii x = true ->
  q <> "" -> x <> "" ->
  let window (kept : list value) :=
    VList (slice_list kept ((Z.max 1 p - 1) * Z.min (Z.max 1 s) 100)
             ((Z.max 1 p - 1) * Z.min (Z.max 1 s) 100 + Z.min (Z.max 1 s) 100)) in
  let query_holds (r : value) :=
    exists t ings, texts r = Some (t, ings) /\
      (occurs_ignoring_case q t \/ exists i, In i ings /\ occurs_ignoring_case q i) in
  let ingredient_holds (r : value) :=
    exists t ings, texts r = Some (t, ings) /\
      exists i, In i ings /\ occurs_ignoring_case x i in
  exists by_query by_both,
    (exists meta,
       list_recipes (Some q) None p s w = (Ok (window by_query, meta), w) /\
       total meta = Z.of_nat (length by_query)) /\
    (exists meta,
       list_recipes (Some q) (Some x) p s w = (Ok (window by_both, meta), w) /\
       total meta = Z.of_nat (length by_both)) /\
    sublist by_query rs /\
    (forall r, In r by_query <-> In r rs /\ query_holds r) /\
    sublist by_both by_query /\
    (forall r, In r by_both <-> In r by_query /\ ingredient_holds r) /\
    (forall r, In r by_both <-> In r rs /\ query_holds r /\ ingredient_holds r) /\
    let soup := VDict {[ "title" := VStr "Tomato Soup";
                         "ingredients" := VList [VStr "tomato"; VStr "basil"] ]} in
    let stored := mkWorld (Decoded (VDict {[ "recipes" := VList [soup];
                                             "next_id" := VInt 2 ]})) ∅ 0 in
    (exists meta, list_recipes (Some "tomato") (Some "basil") 1 10 stored
                    = (Ok (VList [soup], meta), stored)) /\
    (exists meta, list_recipes (Some "pasta") None 1 10 stored
                    = (Ok (VList [], meta), stored)).
Proof.
  intros Hf Hrs Hn Hascii _ _ Hq Hx window query_holds ingredient_holds.
  assert (Hty : Forall (fun r => is_Some (texts r)) rs).
  { eapply Forall_impl; [exact Hascii|]. intros r. apply ascii_texts_typed. }
  assert (Hqt : opt_truthy (Some q) = true).
  { simpl. apply negb_true_iff, String.eqb_neq, Hq. }
  assert (Hxt : opt_truthy (Some x) = true).
  { simpl. apply negb_true_iff, String.eqb_neq, Hx. }
  set (by_query := List.filter (matches_query q) rs).
  set (by_both := List.filter (fun r => matches_query q r && has_ingredient x r) rs).
  assert (Hboth : by_both = List.filter (has_ingredient x) by_query).
  { subst by_both by_query. clear. induction rs as [|r rs IH]; simpl; [reflexivity|].
    destruct (matches_query q r); simpl; [|exact IH].
    destruct (has_ingredient x r); now rewrite IH. }
  assert (Hquery : forall r, In r rs -> (matches_query q r = true <-> query_holds r)).
  { intros r Hr. subst query_holds. cbv beta.
    rewrite Forall_forall in Hty. destruct (Hty r) as [[t ings] Ht].
    { now apply list_elem_of_In. }
    unfold matches_query. rewrite Ht.
    rewrite orb_true_iff, existsb_ci_occurs, ci_contains_occurs. split.
    - intros H. now exists t, ings.
    - intros (t' & ings' & [= <- <-] & H). exact H. }
  assert (Hingr : forall r, In r rs -> (has_ingredient x r = true <-> ingredient_holds r)).
  { intros r Hr. subst ingredient_holds. cbv beta.
    rewrite Forall_forall in Hty. destruct (Hty r) as [[t ings] Ht].
    { now apply list_elem_of_In. }
    unfold has_ingredient. rewrite Ht. rewrite existsb_ci_occurs. split.
    - intros H. now exists t, ings.
    - intros (t' & ings' & [= <- <-] & H). exact H. }
  assert (Hinq : forall r, In r by_query <-> In r rs /\ query_holds r).
  { intros r. subst by_query. rewrite filter_In. split.
    - intros [Hr H]. split; [exact Hr | now apply Hquery].
    - intros [Hr H]. split; [exact Hr | now apply Hquery]. }
  assert (Hinb : forall r, In r by_both <-> In r by_query /\ ingredient_holds r).
  { intros r. rewrite Hboth, filter_In. split.
    - intros [Hr H]. split; [exact Hr|]. apply Hingr; [|exact H]. now apply Hinq.
    - intros [Hr H]. split; [exact Hr|]. apply Hingr; [|exact H]. now apply Hinq. }
  exists by_query, by_both.
  split.
  { rewrite (list_recipes_run w d rs (Some q) None p s Hf Hrs Hn Hty).
    unfold filtered. rewrite Hqt. fold by_query. eexists. split; reflexivity. }
  split.
  { rewrite (list_recipes_run w d rs (Some q) (Some x) p s Hf Hrs Hn Hty).
    unfold filtered. rewrite Hqt, Hxt. fold by_query. rewrite <- Hboth.
    eexists. split; reflexivity. }
  split; [apply list_filter_sublist|].
  split; [exact Hinq|].
  split; [rewrite Hboth; apply list_filter_sublist|].
  split; [exact Hinb|].
  split.
  { intros r. rewrite Hinb, Hinq. tauto. }
  split; eexists; vm_compute; reflexivity.
Qed.

(** ** Recovery from a missing or damaged store file *)

(** Where the recovery works: no file, an undecodable file, a dict without
    one of the keys, and [null], a boolean or a number. *)
Lemma read_file_recovers w :
  file w = Absent \/ file w = Undecodable \/
  (exists d, file w = Decoded (VDict d) /\ lacks_a_key (VDict d) = true) \/
  file w = Decoded VNone \/ (exists b, file w = Decoded (VBool b)) \/
  (exists z, file w = Decoded (VInt z)) ->
  _read_file w = (Ok default_document, w).
Proof.
  intros [H|[H|[(d & H & Hd)|[H|[[b H]|[z H]]]]]].
  - now apply read_file_absent.
  - now apply read_file_undecodable.
  - rewrite (read_file_decoded w _ H). unfold lacks_a_key in Hd. simpl in *.
    destruct (d !! "recipes"); [|reflexivity].
    destruct (d !! "next_id"); [discriminate | reflexivity].
  - now rewrite (read_file_decoded w _ H).
  - now rewrite (read_file_decoded w _ H).
  - now rewrite (read_file_decoded w _ H).
Qed.

(** Listing a store that reads as the default document gives no items. *)
Lemma list_recipes_default w q ingredient p s :
  _read_file w = (Ok default_document, w) ->
  exists meta, list_recipes q ingredient p s w = (Ok (VList [], meta), w) /\
               total meta = 0.
Proof.
  intros H.
  rewrite (list_recipes_read w _ [] q ingredient p s H eq_refl (List.Forall_nil _)).
  assert (Hnil : filtered q ingredient [] = []).
  { unfold filtered. destruct q as [q|], ingredient as [x|]; simpl;
      repeat match goal with |- context [if ?b then _ else _] => destruct b end;
      reflexivity. }
  rewrite Hnil. unfold page_of, slice_list. rewrite skipn_nil, firstn_nil.
  eexists. split; reflexivity.
Qed.

(** C7, at the input where the code departs from it: a store file holding
    the JSON array ["recipes", "next_id"] (or the JSON string
    "recipes next_id") is not a dict and so has neither key, yet both [in]
    tests of [_read_file] succeed on it, the value is returned instead of
    the default document, and [list_recipes] then fails on
    [data["recipes"]] with a TypeError. *)
Theorem read_file_returns_non_dict :
  let arr := VList [VStr "recipes"; VStr "next_id"] in
  let str := VStr "recipes next_id" in
  let w1 := mkWorld (Decoded arr) ∅ 0 in
  let w2 := mkWorld (Decoded str) ∅ 0 in
  lacks_a_key arr = true /\ lacks_a_key str = true /\
  _read_file w1 = (Ok arr, w1) /\ arr <> default_document /\
  _read_file w2 = (Ok str, w2) /\ str <> default_document /\
  list_recipes None None 1 10 w1 = (Raise TypeError, w1) /\
  list_recipes None None 1 10 w2 = (Raise TypeError, w2).
Proof. repeat split; try reflexivity; discriminate. Qed.

(** ** Deleting *)

Lemma has_id_typed recipe_id r i :
  id_of r = Some i -> (has_id recipe_id r = true <-> i = recipe_id).
Proof.
  destruct r as [| | | | |d]; simpl; try discriminate.
  destruct (d !! "id") as [[| |z| | |]|]; try discriminate.
  intros [= ->]. simpl. apply Z.eqb_eq.
Qed.

Lemma id_differs_dict recipe_id r :
  is_dict r = true -> id_differs recipe_id r = Ok (negb (has_id recipe_id r)).
Proof. destruct r; try discriminate. reflexivity. Qed.

Lemma filter_length_lt {A} (f : A -> bool) (l : list A) :
  (length (List.filter f l) < length l)%nat <-> existsb (fun x => negb (f x)) l = true.
Proof.
  induction l as [|x l IH]; simpl; [split; [lia | discriminate]|].
  pose proof (List.filter_length_le f l).
  destruct (f x); simpl.
  - rewrite <- IH. lia.
  - split; [reflexivity | lia].
Qed.

Lemma existsb_filter_out {A} (f : A -> bool) (l : list A) :
  existsb f (List.filter (fun x => negb (f x)) l) = false.
Proof.
  induction l as [|x l IH]; simpl; [reflexivity|].
  destruct (f x) eqn:E; simpl; [exact IH | now rewrite E].
Qed.

Lemma delete_recipe_run w d rs recipe_id :
  file w = Decoded (VDict d) ->
  d !! "recipes" = Some (VList rs) ->
  is_Some (d !! "next_id") ->
  Forall (fun r => is_dict r = true) rs ->
  delete_recipe recipe_id w =
    if existsb (has_id recipe_id) rs
    then (Ok true,
          mkWorld (Decoded (VDict (<["recipes" :=
                     VList (List.filter (fun r => negb (has_id recipe_id r)) rs)]> d)))
                  (sessions w) (ticks w))
    else (Ok false, w).
Proof.
  intros Hf Hrs Hn Hd. unfold delete_recipe.
  rewrite (bind_run _ _ _ _ _ (read_file_dict w d Hf (ex_intro _ _ Hrs) Hn)).
  unfold py_getitem_str. rewrite Hrs, bind_lift_Ok. simpl py_len. rewrite bind_lift_Ok.
  rewrite (bind_lift_run _ _ _ _
    (comprehension_typed _ (fun r => negb (has_id recipe_id r)) rs
       (Forall_impl _ _ _ Hd (id_differs_dict recipe_id)))).
  simpl py_setitem_str. rewrite bind_lift_Ok. simpl py_len. rewrite bind_lift_Ok.
  pose proof (filter_length_lt (fun r => negb (has_id recipe_id r)) rs) as Hlt.
  assert (Hex : existsb (fun x => negb (negb (has_id recipe_id x))) rs
                = existsb (has_id recipe_id) rs).
  { clear. induction rs as [|r rs IH]; simpl; [reflexivity|].
    now rewrite negb_involutive, IH. }
  cbv beta in Hlt. rewrite Hex in Hlt.
  destruct (existsb (has_id recipe_id) rs).
  - replace (_ <? _) with true by (symmetry; apply Z.ltb_lt; apply proj2 in Hlt; lia).
    reflexivity.
  - replace (_ <? _) with false; [reflexivity|].
    symmetry; apply Z.ltb_ge.
    destruct (Nat.lt_ge_cases
      (length (List.filter (fun r => negb (has_id recipe_id r)) rs)) (length rs))
      as [H|H]; [apply Hlt in H; discriminate | lia].
Qed.

(** C6: [delete_recipe] removes exactly the entries whose id matches,
    returns true exactly when at least one entry was removed, and writes
    the document only then (nothing matched: the state is untouched);
    deleting the same id again returns false, so an id that is present
    gives true the first time and false the second. *)
Theorem delete_recipe_removes_matching w d rs recipe_id :
  file w = Decoded (VDict d) ->
  d !! "recipes" = Some (VList rs) ->
  is_Some (d !! "next_id") ->
  Forall (fun r => is_dict r = true) rs ->
  let kept := List.filter (fun r => negb (has_id recipe_id r)) rs in
  let removed := existsb (has_id recipe_id) rs in
  (forall r i, id_of r = Some i -> (has_id recipe_id r = true <-> i = recipe_id)) /\
  exists w1,
    delete_recipe recipe_id w = (Ok removed, w1) /\
    (removed = true <-> (length kept < length rs)%nat) /\
    (removed = true ->
       file w1 = Decoded (VDict (<["recipes" := VList kept]> d))) /\
    (removed = false -> w1 = w) /\
    exists w2, delete_recipe recipe_id w1 = (Ok false, w2) /\ file w2 = file w1.
Proof.
  intros Hf Hrs Hn Hd kept removed.
  split; [intros r i; apply has_id_typed|].
  pose proof (delete_recipe_run w d rs recipe_id Hf Hrs Hn Hd) as Hrun.
  fold kept removed in Hrun.
  assert (Hlen : removed = true <-> (length kept < length rs)%nat).
  { subst kept removed. rewrite filter_length_lt.
    assert (E : existsb (fun x => negb (negb (has_id recipe_id x))) rs
                = existsb (has_id recipe_id) rs).
    { clear. induction rs as [|r rs IH]; simpl; [reflexivity|].
      now rewrite negb_involutive, IH. }
    cbv beta. now rewrite E. }
  destruct removed eqn:Hrem.
  - eexists. split; [exact Hrun|]. split; [exact Hlen|].
    split; [reflexivity|]. split; [discriminate|].
    set (w1 := mkWorld _ _ _) in *.
    assert (Hk : Forall (fun r => is_dict r = true) kept).
    { subst kept. rewrite Forall_forall in *. intros r Hr. apply Hd.
      rewrite list_elem_of_In in *. apply filter_In in Hr. tauto. }
    pose proof (delete_recipe_run w1 _ kept recipe_id eq_refl
                  (lookup_insert_eq _ _ _)) as Hrun2.
    rewrite Hrun2; cycle 1.
    { rewrite lookup_insert_ne by discriminate. exact Hn. }
    { exact Hk. }
    subst kept. rewrite existsb_filter_out. eauto.
  - exists w. split; [exact Hrun|]. split; [exact Hlen|].
    split; [discriminate|]. split; [reflexivity|].
    exists w. split; [|reflexivity].
    rewrite (delete_recipe_run w d rs recipe_id Hf Hrs Hn Hd).
    fold removed. now rewrite Hrem.
Qed.

(** ** Creating and updating *)

Lemma setdefault_present key v (d : pydict) k :
  is_Some (d !! k) -> setdefault key v d !! k = d !! k.
Proof.
  intros Hk. unfold setdefault. destruct (d !! key) eqn:E; [reflexivity|].
  rewrite lookup_insert_ne; [reflexivity|]. intros ->. rewrite E in Hk.
  now destruct Hk.
Qed.

Lemma setdefault_other key v (d : pydict) k :
  key <> k -> setdefault key v d !! k = d !! k.
Proof.
  intros Hk. unfold setdefault. destruct (d !! key); [reflexivity|].
  now rewrite lookup_insert_ne.
Qed.

Lemma setdefault_is_Some key v (d : pydict) k :
  is_Some (d !! k) -> is_Some (setdefault key v d !! k).
Proof. intros H. now rewrite setdefault_present. Qed.

Lemma normalized_present t1 t2 recipe k :
  is_Some (recipe !! k) -> normalized t1 t2 recipe !! k = recipe !! k.
Proof.
  intros H. unfold normalized.
  repeat (rewrite setdefault_present; [|repeat apply setdefault_is_Some; exact H]).
  reflexivity.
Qed.

Lemma normalized_other t1 t2 recipe k :
  k ∉ normalized_fields -> normalized t1 t2 recipe !! k = recipe !! k.
Proof.
  intros H. unfold normalized.
  repeat (rewrite setdefault_other;
          [|intros <-; apply H; by_decide]).
  reflexivity.
Qed.

Section Mutations.

Variable time_time : nat -> Z.
Variable int_of_str : string -> option Z.

Lemma normalize_recipe_run recipe w :
  _normalize_recipe time_time recipe w =
    (Ok (normalized (time_time (ticks w)) (time_time (S (ticks w))) recipe),
     mkWorld (file w) (sessions w) (S (S (ticks w)))).
Proof. reflexivity. Qed.

Lemma create_recipe_run w d rs n recipe :
  _read_file w = (Ok (VDict d), w) ->
  d !! "recipes" = Some (VList rs) ->
  d !! "next_id" = Some (VInt n) ->
  create_recipe time_time int_of_str recipe w =
    (Ok (created time_time recipe n (ticks w)),
     mkWorld
       (Decoded (VDict (<["next_id" := VInt (n + 1)]>
                          (<["recipes" := VList (rs ++ [VDict (created time_time recipe n (ticks w))])]> d))))
       (sessions w) (S (S (S (ticks w))))).
Proof.
  intros Hread Hrs Hn. unfold create_recipe.
  rewrite (bind_run _ _ _ _ _ Hread).
  rewrite (bind_run _ _ _ _ _ (normalize_recipe_run recipe w)).
  unfold py_get. rewrite Hn, bind_lift_Ok. simpl py_int. rewrite bind_lift_Ok.
  unfold bind at 1. unfold int_time at 1. cbn [ticks file sessions].
  unfold py_getitem_str. rewrite Hrs, bind_lift_Ok.
  reflexivity.
Qed.

Lemma ids_fresh_nil n : ids_fresh [] n.
Proof. exists []. repeat split; constructor. Qed.

Lemma id_of_created recipe n k : id_of (VDict (created time_time recipe n k)) = Some n.
Proof.
  unfold id_of, created.
  rewrite !lookup_insert_ne by discriminate. now rewrite lookup_insert_eq.
Qed.

Lemma ids_fresh_snoc rs n r :
  ids_fresh rs n -> id_of r = Some n -> ids_fresh (rs ++ [r])%list (n + 1).
Proof.
  intros (ids & Hids & Hnd & Hlt) Hr. exists (ids ++ [n])%list.
  rewrite mapM_Some in *. split; [|split].
  - apply Forall2_app; [exact Hids|]. now repeat constructor.
  - apply NoDup_app. split; [exact Hnd|]. split; [|apply NoDup_singleton].
    intros i Hi Hin. apply list_elem_of_singleton in Hin as ->.
    rewrite Forall_forall in Hlt. specialize (Hlt n Hi). lia.
  - apply Forall_app. split.
    + eapply Forall_impl; [exact Hlt|]. simpl. intros; lia.
    + repeat constructor. lia.
Qed.

Lemma store_inv_create w d rs n recipe res w' :
  store_inv w d rs n ->
  create_recipe time_time int_of_str recipe w = (res, w') ->
  exists d' r, res = Ok r /\ store_inv w' d' (rs ++ [VDict r])%list (n + 1).
Proof.
  intros (Hread & Hrs & Hn & Hfresh) Hrun.
  rewrite (create_recipe_run w d rs n recipe Hread Hrs Hn) in Hrun.
  injection Hrun as <- <-. eexists _, _. split; [reflexivity|].
  split; [|split; [|split]].
  - apply read_file_dict; [reflexivity| |].
    + rewrite lookup_insert_ne by discriminate. rewrite lookup_insert_eq. eauto.
    + rewrite lookup_insert_eq. eauto.
  - rewrite lookup_insert_ne by discriminate. apply lookup_insert_eq.
  - apply lookup_insert_eq.
  - apply ids_fresh_snoc; [exact Hfresh | apply id_of_created].
Qed.

Lemma reachable_inv w : reachable time_time int_of_str w -> exists d rs n, store_inv w d rs n.
Proof.
  induction 1 as [w Hread | w recipe res w' _ (d & rs & n & Hinv) Hrun].
  - eexists _, [], 1. split; [exact Hread|].
    split; [reflexivity|]. split; [reflexivity|]. apply ids_fresh_nil.
  - destruct (store_inv_create w d rs n recipe res w' Hinv Hrun)
      as (d' & r & _ & Hinv').
    eauto.
Qed.

(** C1: in every state reachable from the default document by
    [create_recipe] calls, the ids of the stored recipes are pairwise
    distinct and [next_id] is strictly greater than each of them; a further
    [create_recipe] that returns has given the new recipe the id [next_id],
    appended it, and stored [next_id + 1] as the new counter. *)
Theorem create_recipe_ids_distinct w :
  reachable time_time int_of_str w ->
  exists d rs n ids,
    _read_file w = (Ok (VDict d), w) /\
    d !! "recipes" = Some (VList rs) /\
    d !! "next_id" = Some (VInt n) /\
    mapM id_of rs = Some ids /\
    NoDup ids /\
    Forall (fun i => i < n) ids /\
    forall recipe r w',
      create_recipe time_time int_of_str recipe w = (Ok r, w') ->
      r !! "id" = Some (VInt n) /\
      exists d',
        file w' = Decoded (VDict d') /\
        d' !! "recipes" = Some (VList (rs ++ [VDict r])) /\
        d' !! "next_id" = Some (VInt (n + 1)).
Proof.
  intros Hreach.
  destruct (reachable_inv w Hreach) as (d & rs & n & Hread & Hrs & Hn & ids & Hids & Hnd & Hlt).
  exists d, rs, n, ids. repeat (split; [assumption|]).
  intros recipe r w' Hrun.
  rewrite (create_recipe_run w d rs n recipe Hread Hrs Hn) in Hrun.
  injection Hrun as <- <-.
  split.
  - unfold created. rewrite !lookup_insert_ne by discriminate. apply lookup_insert_eq.
  - eexists. split; [reflexivity|]. split.
    + rewrite lookup_insert_ne by discriminate. apply lookup_insert_eq.
    + apply lookup_insert_eq.
Qed.

Lemma update_loop_skip recipe_id updates data recipes pre rest :
  Forall (other_recipe recipe_id) pre ->
  forall i w,
    update_loop time_time recipe_id updates data recipes i (pre ++ rest) w =
    update_loop time_time recipe_id updates data recipes (i + length pre) rest w.
Proof.
  induction 1 as [|r pre [Hd Hid] _ IH]; intros i w; simpl.
  - now rewrite Nat.add_0_r.
  - destruct r as [| | | | |rd]; try discriminate.
    simpl in Hid. simpl py_get. rewrite bind_lift_Ok, Hid, IH.
    f_equal. lia.
Qed.

Lemma update_loop_found recipe_id updates d pre r post w :
  has_id recipe_id (VDict r) = true ->
  update_loop time_time recipe_id updates (VDict d)
    (VList (pre ++ VDict r :: post)) (length pre) (VDict r :: post) w =
  (Ok (Some (VDict (updated time_time updates r (ticks w)))),
   mkWorld
     (Decoded (VDict (<["recipes" :=
        VList (pre ++ VDict (updated time_time updates r (ticks w)) :: post)]> d)))
     (sessions w) (S (S (S (ticks w))))).
Proof.
  intros Hid. simpl in Hid. simpl update_loop. simpl py_get.
  rewrite bind_lift_Ok, Hid.
  unfold bind at 1. unfold int_time at 1. cbn [ticks file sessions].
  rewrite (bind_run _ _ _ _ _ (normalize_recipe_run _ _)). cbn [ticks file sessions].
  unfold py_setitem_nat.
  replace (length pre <? length (pre ++ VDict r :: post))%nat with true
    by (symmetry; apply Nat.ltb_lt; rewrite length_app; simpl; lia).
  rewrite bind_lift_Ok.
  replace (<[length pre := VDict (updated time_time updates r (ticks w))]> (pre ++ VDict r :: post))
    with (pre ++ VDict (updated time_time updates r (ticks w)) :: post)%list; [reflexivity|].
  rewrite <- (Nat.add_0_r (length pre)). now rewrite insert_app_r.
Qed.

Lemma mutable_updates_Some updates key v :
  key ∈ mutable_fields -> updates !! key = Some v ->
  mutable_updates updates !! key = Some v.
Proof. intros Hk Hv. unfold mutable_updates. now apply map_lookup_filter_Some. Qed.

Lemma mutable_updates_None updates key :
  key ∉ mutable_fields \/ updates !! key = None ->
  mutable_updates updates !! key = None.
Proof.
  intros H. unfold mutable_updates. apply map_lookup_filter_None.
  destruct H as [H|H]; [right; intros x _; exact H | now left].
Qed.

Lemma updated_merged updates r k key v :
  key ∈ mutable_fields -> updates !! key = Some v ->
  updated time_time updates r k !! key = Some v.
Proof.
  intros Hk Hv. unfold updated.
  assert (Hne : "updated_at" <> key).
  { intros <-. revert Hk. by_decide. }
  assert (H : (<["updated_at" := VInt (time_time k)]> (mutable_updates updates ∪ r))
                !! key = Some v).
  { rewrite lookup_insert_ne by exact Hne.
    apply lookup_union_Some_l. now apply mutable_updates_Some. }
  rewrite normalized_present; [exact H | rewrite H; eauto].
Qed.

Lemma updated_stamp updates r k :
  updated time_time updates r k !! "updated_at" = Some (VInt (time_time k)).
Proof.
  unfold updated. rewrite normalized_present; rewrite lookup_insert_eq; eauto.
Qed.

Lemma updated_frame updates r k key :
  key <> "updated_at" ->
  key ∉ mutable_fields \/ updates !! key = None ->
  is_Some (r !! key) \/ key ∉ normalized_fields ->
  updated time_time updates r k !! key = r !! key.
Proof.
  intros Hne Hnot Hr. unfold updated.
  assert (H : (<["updated_at" := VInt (time_time k)]> (mutable_updates updates ∪ r))
                !! key = r !! key).
  { rewrite lookup_insert_ne by congruence.
    apply lookup_union_r. now apply mutable_updates_None. }
  destruct Hr as [Hr|Hr].
  - rewrite normalized_present; [exact H | now rewrite H].
  - now rewrite normalized_other.
Qed.

Lemma has_id_is_Some recipe_id (r : pydict) :
  has_id recipe_id (VDict r) = true -> is_Some (r !! "id").
Proof. simpl. destruct (r !! "id"); [eauto | discriminate]. Qed.

(** C5: when the stored document contains a recipe with the given id, an
    [update_recipe] that returns has merged into the first such recipe
    exactly the entries of [updates] whose key is one of title,
    description, ingredients, instructions, tags, stamped [updated_at] with
    the current time, kept the recipe's [id] and [created_at] and every
    other field it has, and left every other recipe and the rest of the
    document as they were; when no recipe has the id, it returns [None]
    and changes nothing. *)
Theorem update_recipe_merges w d rs recipe_id updates :
  file w = Decoded (VDict d) ->
  d !! "recipes" = Some (VList rs) ->
  is_Some (d !! "next_id") ->
  (forall pre r post found w',
     rs = (pre ++ VDict r :: post)%list ->
     Forall (other_recipe recipe_id) pre ->
     has_id recipe_id (VDict r) = true ->
     is_Some (r !! "created_at") ->
     update_recipe time_time recipe_id updates w = (Ok found, w') ->
     exists r',
       found = Some (VDict r') /\
       file w' = Decoded (VDict (<["recipes" := VList (pre ++ VDict r' :: post)]> d)) /\
       (forall key v,
          In key ["title"; "description"; "ingredients"; "instructions"; "tags"] ->
          updates !! key = Some v ->
          r' !! key = Some v) /\
       r' !! "updated_at" = Some (VInt (time_time (ticks w))) /\
       r' !! "id" = r !! "id" /\
       r' !! "created_at" = r !! "created_at" /\
       (forall key, key <> "updated_at" ->
                    ~ In key ["title"; "description"; "ingredients"; "instructions"; "tags"]
                    \/ updates !! key = None ->
                    is_Some (r !! key)
                    \/ ~ In key ["id"; "title"; "description"; "ingredients";
                                 "instructions"; "tags"; "created_at"; "updated_at"] ->
                    r' !! key = r !! key)) /\
  (Forall (other_recipe recipe_id) rs ->
   update_recipe time_time recipe_id updates w = (Ok None, w)).
Proof.
  intros Hf Hrs Hn.
  pose proof (read_file_dict w d Hf (ex_intro _ _ Hrs) Hn) as Hread.
  assert (Hstart : update_recipe time_time recipe_id updates w =
                   update_loop time_time recipe_id updates (VDict d) (VList rs) 0 rs w).
  { unfold update_recipe. rewrite (bind_run _ _ _ _ _ Hread).
    unfold py_getitem_str. now rewrite Hrs. }
  split.
  - intros pre r post found w' -> Hpre Hid Hcreated Hrun.
    rewrite Hstart, update_loop_skip in Hrun by exact Hpre.
    change (0 + length pre)%nat with (length pre) in Hrun.
    rewrite (update_loop_found _ _ _ _ _ _ _ Hid) in Hrun.
    injection Hrun as <- <-.
    exists (updated time_time updates r (ticks w)).
    split; [reflexivity|].
    split; [reflexivity|].
    split.
    { intros key v Hkey. apply updated_merged. apply list_elem_of_In. exact Hkey. }
    split; [apply updated_stamp|].
    split; [|split].
    + apply updated_frame; [discriminate | | left; now apply has_id_is_Some with recipe_id].
      left. by_decide.
    + apply updated_frame; [discriminate | | now left].
      left. by_decide.
    + intros key Hne Hnot Hr. apply updated_frame; [exact Hne | |].
      * destruct Hnot as [Hnot|Hnot]; [left | now right].
        intros Hin. apply Hnot. apply list_elem_of_In. exact Hin.
      * destruct Hr as [Hr|Hr]; [now left | right].
        intros Hin. apply Hr. apply list_elem_of_In. exact Hin.
  - intros Hall. rewrite Hstart.
    rewrite <- (app_nil_r rs) at 2. now rewrite update_loop_skip.
Qed.

End Mutations.

(** ** The session registry *)

Section Sessions.

Variable time_time : nat -> Z.

Lemma create_session_run user_id user_name w :
  create_session time_time user_id user_name w =
    (Ok (make_token user_id (time_time (ticks w))),
     mkWorld (file w)
       (<[make_token user_id (time_time (ticks w)) :=
            mkSession user_id user_name (time_time (S (ticks w)))]> (sessions w))
       (S (S (ticks w)))).
Proof. reflexivity. Qed.

Lemma get_session_run token w : get_session token w = (Ok (sessions w !! token), w).
Proof. reflexivity. Qed.

Lemma delete_session_run token w :
  delete_session token w =
    (Ok tt, mkWorld (file w) (delete token (sessions w)) (ticks w)).
Proof. reflexivity. Qed.

(** C9: the token returned by [create_session] looks up a record with the
    same user id and name; after [delete_session] on it the lookup returns
    [None]; [delete_session] on a token that is not registered returns
    normally and leaves the state as it was. *)
Theorem session_lifecycle w user_id user_name :
  exists token w1,
    create_session time_time user_id user_name w = (Ok token, w1) /\
    (exists created,
       get_session token w1 = (Ok (Some (mkSession user_id user_name created)), w1)) /\
    (exists w2,
       delete_session token w1 = (Ok tt, w2) /\
       get_session token w2 = (Ok None, w2)) /\
    (forall w' absent,
       sessions w' !! absent = None -> delete_session absent w' = (Ok tt, w')).
Proof.
  eexists _, _. split; [apply create_session_run|].
  split.
  { eexists. rewrite get_session_run. cbn [sessions]. now rewrite lookup_insert_eq. }
  split.
  { eexists. split; [apply delete_session_run|].
    rewrite get_session_run. cbn [sessions]. now rewrite lookup_delete_eq. }
  intros w' absent Habs. rewrite delete_session_run.
  rewrite delete_id by exact Habs. now destruct w'.
Qed.

(** C10: the token is a function of the user id and of the second the clock
    shows: two [create_session] calls for the same user that read the same
    second return the same token, and when the second call follows the
    first, its record replaces the first one under that token; the registry
    holds no additional session. *)
Theorem create_session_same_second w1 w2 user_id name1 name2 :
  time_time (ticks w1) = time_time (ticks w2) ->
  exists token w1' w2',
    create_session time_time user_id name1 w1 = (Ok token, w1') /\
    create_session time_time user_id name2 w2 = (Ok token, w2') /\
    token = make_token user_id (time_time (ticks w1)) /\
    sessions w1' !! token = Some (mkSession user_id name1 (time_time (S (ticks w1)))) /\
    (sessions w2 = sessions w1' ->
       sessions w2' !! token = Some (mkSession user_id name2 (time_time (S (ticks w2)))) /\
       sessions w2' =
         <[token := mkSession user_id name2 (time_time (S (ticks w2)))]> (sessions w1) /\
       dom (sessions w2') = dom (sessions w1')).
Proof.
  intros Hsame. eexists _, _, _.
  split; [apply create_session_run|].
  split; [rewrite create_session_run, <- Hsame; reflexivity|].
  split; [reflexivity|]. cbn [sessions].
  split; [apply lookup_insert_eq|].
  intros ->.
  split; [apply lookup_insert_eq|].
  split; [apply insert_insert_eq|].
  rewrite insert_insert_eq. now rewrite !dom_insert_L.
Qed.

End Sessions.

(** * The statements at sample inputs *)

Lemma sample_recipes_typed : Forall (fun r => is_Some (texts r)) sample_recipes.
Proof. repeat constructor; eexists; vm_compute; reflexivity. Defined.

Lemma sample_recipes_dicts : Forall (fun r => is_dict r = true) sample_recipes.
Proof. repeat constructor. Defined.

Lemma sample_next_id : is_Some (sample_document !! "next_id").
Proof. eexists. vm_compute. reflexivity. Defined.

Lemma create_recipe_ids_distinct_witness :
  let create title w :=
    snd (create_recipe sample_clock sample_int_of_str {[ "title" := VStr title ]} w) in
  let w3 := create "Salad" (create "Stew" (create "Soup" empty_world)) in
  reachable sample_clock sample_int_of_str w3 /\
  match file w3 with
  | Decoded (VDict d) =>
      match d !! "recipes", d !! "next_id" with
      | Some (VList rs), Some (VInt n) => mapM id_of rs = Some [1; 2; 3] /\ n = 4
      | _, _ => False
      end
  | _ => False
  end /\
  exists d rs n ids,
    _read_file w3 = (Ok (VDict d), w3) /\
    d !! "recipes" = Some (VList rs) /\
    d !! "next_id" = Some (VInt n) /\
    mapM id_of rs = Some ids /\
    NoDup ids /\
    Forall (fun i => i < n) ids /\
    forall recipe r w',
      create_recipe sample_clock sample_int_of_str recipe w3 = (Ok r, w') ->
      r !! "id" = Some (VInt n) /\
      exists d',
        file w' = Decoded (VDict d') /\
        d' !! "recipes" = Some (VList (rs ++ [VDict r])) /\
        d' !! "next_id" = Some (VInt (n + 1)).
Proof.
  intros create w3.
  assert (Hr : reachable sample_clock sample_int_of_str w3).
  { refine (reach_create _ _ _ _ _ _ _ (surjective_pairing _)).
    refine (reach_create _ _ _ _ _ _ _ (surjective_pairing _)).
    exact (reach_create _ _ empty_world _ _ _
             (reach_default _ _ empty_world eq_refl) (surjective_pairing _)). }
  split; [exact Hr|].
  split; [vm_compute; split; reflexivity|].
  exact (create_recipe_ids_distinct sample_clock sample_int_of_str w3 Hr).
Defined.

Lemma list_recipes_paginates_witness :
  file sample_world = Decoded (VDict sample_document) /\
  sample_document !! "recipes" = Some (VList sample_recipes) /\
  1 <= 1 /\ 1 <= 10 <= 100 /\
  exists items meta,
    list_recipes (Some "tomato") None 1 10 sample_world
      = (Ok (VList items, meta), sample_world) /\
    total meta = Z.of_nat (length (filtered (Some "tomato") None sample_recipes)) /\
    page meta = 1 /\ page_size meta = 10.
Proof.
  split; [reflexivity|]. split; [vm_compute; reflexivity|].
  split; [lia|]. split; [lia|].
  destruct (list_recipes_paginates sample_world sample_document sample_recipes
              (Some "tomato") None 1 10 eq_refl ltac:(vm_compute; reflexivity)
              sample_next_id sample_recipes_typed ltac:(lia) ltac:(lia))
    as (items & meta & H1 & _ & _ & H2 & _ & _ & _ & H3 & H4 & _).
  exists items, meta. repeat split; assumption.
Defined.

Lemma list_recipes_filters_witness :
  file sample_world = Decoded (VDict sample_document) /\
  sample_document !! "recipes" = Some (VList sample_recipes) /\
  Forall (fun r => ascii_texts r = true) sample_recipes /\
  is_ascii "SOUP" = true /\ is_ascii "BASIL" = true /\
  "SOUP" <> "" /\ "BASIL" <> "" /\
  items_of (list_recipes (Some "SOUP") (Some "BASIL") 1 10 sample_world)
    = [VDict soup_fields] /\
  exists by_both meta,
    list_recipes (Some "SOUP") (Some "BASIL") 1 10 sample_world
      = (Ok (VList (slice_list by_both 0 10), meta), sample_world) /\
    forall r,
      In r by_both <->
      In r sample_recipes /\
      (exists t ings, texts r = Some (t, ings) /\
         (occurs_ignoring_case "SOUP" t \/
          exists i, In i ings /\ occurs_ignoring_case "SOUP" i)) /\
      (exists t ings, texts r = Some (t, ings) /\
         exists i, In i ings /\ occurs_ignoring_case "BASIL" i).
Proof.
  assert (Hascii : Forall (fun r => ascii_texts r = true) sample_recipes)
    by (repeat constructor).
  split; [reflexivity|]. split; [vm_compute; reflexivity|].
  split; [exact Hascii|].
  split; [reflexivity|]. split; [reflexivity|].
  split; [discriminate|]. split; [discriminate|].
  split; [vm_compute; reflexivity|].
  destruct (list_recipes_filters sample_world sample_document sample_recipes
              "SOUP" "BASIL" 1 10 eq_refl ltac:(vm_compute; reflexivity)
              sample_next_id Hascii eq_refl eq_refl ltac:(discriminate)
              ltac:(discriminate))
    as (by_query & by_both & _ & (meta & Hrun & _) & _ & _ & _ & _ & Hin & _).
  exists by_both, meta. split; [exact Hrun | exact Hin].
Defined.

Lemma list_recipes_clamps_witness :
  file sample_world = Decoded (VDict sample_document) /\
  sample_document !! "recipes" = Some (VList sample_recipes) /\
  exists items meta,
    list_recipes None None (-3) 5000 sample_world
      = (Ok (VList items, meta), sample_world) /\
    page meta = 1 /\ page_size meta = 100.
Proof.
  split; [reflexivity|]. split; [vm_compute; reflexivity|].
  destruct (list_recipes_clamps sample_world sample_document sample_recipes
              None None (-3) 5000 eq_refl ltac:(vm_compute; reflexivity)
              sample_next_id sample_recipes_typed)
    as (_ & _ & _ & _ & items & meta & H1 & H2 & H3 & _).
  exists items, meta. repeat split; assumption.
Defined.

Lemma update_recipe_merges_witness :
  let updates : pydict :=
    {[ "title" := VStr "Salad"; "tags" := VList [VStr "cold"]; "id" := VInt 9 ]} in
  file sample_world = Decoded (VDict sample_document) /\
  sample_document !! "recipes" = Some (VList sample_recipes) /\
  sample_recipes = [VDict soup_fields] ++ VDict salad_fields :: [] /\
  Forall (other_recipe 2) [VDict soup_fields] /\
  has_id 2 (VDict salad_fields) = true /\
  exists found w' r',
    update_recipe sample_clock 2 updates sample_world = (Ok found, w') /\
    found = Some (VDict r') /\
    r' !! "title" = Some (VStr "Salad") /\
    r' !! "tags" = Some (VList [VStr "cold"]) /\
    r' !! "id" = salad_fields !! "id" /\
    r' !! "created_at" = salad_fields !! "created_at" /\
    update_recipe sample_clock 7 updates sample_world = (Ok None, sample_world).
Proof.
  intros updates.
  assert (Hpre : Forall (other_recipe 2) [VDict soup_fields])
    by (repeat constructor).
  assert (Hnone : Forall (other_recipe 7) sample_recipes)
    by (repeat constructor).
  split; [reflexivity|]. split; [vm_compute; reflexivity|].
  split; [reflexivity|]. split; [exact Hpre|]. split; [vm_compute; reflexivity|].
  destruct (update_recipe_merges sample_clock sample_world sample_document
              sample_recipes 2 updates eq_refl ltac:(vm_compute; reflexivity)
              sample_next_id) as [Hfound _].
  destruct (update_recipe_merges sample_clock sample_world sample_document
              sample_recipes 7 updates eq_refl ltac:(vm_compute; reflexivity)
              sample_next_id) as [_ Hmissing].
  destruct (update_recipe sample_clock 2 updates sample_world) as [[found|e] w'] eqn:Hrun;
    [|vm_compute in Hrun; discriminate Hrun].
  destruct (Hfound [VDict soup_fields] salad_fields [] found w' eq_refl Hpre
              ltac:(vm_compute; reflexivity)
              ltac:(eexists; vm_compute; reflexivity)
              eq_refl)
    as (r' & H0 & _ & H2 & _ & H3 & H4 & _).
  exists found, w', r'. split; [reflexivity|].
  split; [exact H0|].
  split; [apply (H2 "title"); [simpl; tauto | vm_compute; reflexivity]|].
  split; [apply (H2 "tags"); [simpl; tauto | vm_compute; reflexivity]|].
  split; [exact H3|]. split; [exact H4|].
  exact (Hmissing Hnone).
Defined.

Lemma delete_recipe_removes_matching_witness :
  file sample_world = Decoded (VDict sample_document) /\
  sample_document !! "recipes" = Some (VList sample_recipes) /\
  exists w1 w2,
    delete_recipe 1 sample_world = (Ok true, w1) /\
    file w1 = Decoded (VDict (<["recipes" := VList [VDict salad_fields]]> sample_document)) /\
    delete_recipe 1 w1 = (Ok false, w2) /\
    file w2 = file w1.
Proof.
  split; [reflexivity|]. split; [vm_compute; reflexivity|].
  destruct (delete_recipe_removes_matching sample_world sample_document
              sample_recipes 1 eq_refl ltac:(vm_compute; reflexivity)
              sample_next_id sample_recipes_dicts)
    as (_ & w1 & H1 & _ & H2 & _ & w2 & H3 & H4).
  exists w1, w2. split; [exact H1|]. split; [exact (H2 eq_refl)|].
  split; [exact H3 | exact H4].
Defined.

Lemma session_lifecycle_witness :
  sessions empty_world !! "token_bob_1700000000" = None /\
  delete_session "token_bob_1700000000" empty_world = (Ok tt, empty_world) /\
  exists token w1 created,
    create_session sample_clock "bob" "Bob" empty_world = (Ok token, w1) /\
    get_session token w1 = (Ok (Some (mkSession "bob" "Bob" created)), w1).
Proof.
  destruct (session_lifecycle sample_clock empty_world "bob" "Bob")
    as (token & w1 & H1 & (created & H2) & _ & H3).
  split; [reflexivity|].
  split; [apply H3; reflexivity|].
  exists token, w1, created. split; assumption.
Defined.

Lemma create_session_same_second_witness :
  let w2 := snd (create_session frozen_clock "bob" "Bob" empty_world) in
  frozen_clock (ticks empty_world) = frozen_clock (ticks w2) /\
  exists token w1' w2',
    create_session frozen_clock "bob" "Bob" empty_world = (Ok token, w1') /\
    create_session frozen_clock "bob" "Robert" w2 = (Ok token, w2') /\
    sessions w2' !! token = Some (mkSession "bob" "Robert" 1700000000) /\
    dom (sessions w2') = dom (sessions w1').
Proof.
  intros w2. split; [reflexivity|].
  destruct (create_session_same_second frozen_clock empty_world w2 "bob" "Bob" "Robert"
              eq_refl)
    as (token & w1' & w2' & H1 & H2 & _ & _ & H3).
  assert (Hw : w1' = w2).
  { unfold w2. now rewrite H1. }
  destruct (H3 ltac:(now rewrite Hw)) as (H4 & _ & H5).
  exists token, w1', w2'. repeat split; assumption.
Defined.

(** * Further properties of the repository, the schemas and the routes *)

Example replace_bearer : str_replace "Bearer abc" "Bearer " "" = "abc".
Proof. reflexivity. Qed.

Example replace_without_overlap : str_replace "aaa" "aa" "b" = "ba".
Proof. reflexivity. Qed.

Example replace_empty_old : str_replace "abc" "" "-" = "-a-b-c-".
Proof. reflexivity. Qed.

(** ** Looking a recipe up *)

Lemma get_loop_find recipe_id rs :
  Forall (fun r => is_dict r = true) rs ->
  get_loop recipe_id rs = Ok (List.find (has_id recipe_id) rs).
Proof.
  induction 1 as [|r rs Hr _ IH]; simpl; [reflexivity|].
  destruct r as [| | | | |d]; try discriminate. simpl.
  destruct (py_eq_int _ recipe_id); [reflexivity | exact IH].
Qed.

Lemma get_recipe_read w d rs recipe_id :
  _read_file w = (Ok (VDict d), w) ->
  d !! "recipes" = Some (VList rs) ->
  Forall (fun r => is_dict r = true) rs ->
  get_recipe recipe_id w = (Ok (List.find (has_id recipe_id) rs), w).
Proof.
  intros Hread Hrs Hd. unfold get_recipe.
  rewrite (bind_run _ _ _ _ _ Hread).
  unfold py_getitem_str. rewrite Hrs, bind_lift_Ok. simpl py_iter.
  rewrite bind_lift_Ok. unfold lift. now rewrite get_loop_find.
Qed.

(** A recipe has one id: it cannot match two different integers. *)
Lemma has_id_unique i j r :
  has_id i r = true -> has_id j r = true -> i = j.
Proof.
  destruct r as [| | | | |d]; simpl; try discriminate.
  destruct (d !! "id") as [[| b | z | | |]|]; simpl; try discriminate; lia.
Qed.

Lemma find_app_none {A} (f : A -> bool) (l k : list A) :
  existsb f l = false -> List.find f (l ++ k) = List.find f k.
Proof.
  induction l as [|x l IH]; simpl; [reflexivity|].
  destruct (f x); [discriminate | exact IH].
Qed.

Lemma find_filter_other {A} (f g : A -> bool) (l : list A) :
  (forall x, f x = true -> g x = true) ->
  List.find f (List.filter g l) = List.find f l.
Proof.
  intros Hfg. induction l as [|x l IH]; simpl; [reflexivity|].
  destruct (g x) eqn:Eg; simpl.
  - destruct (f x); [reflexivity | exact IH].
  - destruct (f x) eqn:Ef; [|exact IH]. apply Hfg in Ef. congruence.
Qed.

Lemma find_none_existsb {A} (f : A -> bool) (l : list A) :
  existsb f l = false -> List.find f l = None.
Proof.
  induction l as [|x l IH]; simpl; [reflexivity|].
  destruct (f x); [discriminate | exact IH].
Qed.

Lemma typed_ids_dicts rs ids :
  mapM id_of rs = Some ids -> Forall (fun r => is_dict r = true) rs.
Proof.
  rewrite mapM_Some. induction 1 as [|r i rs ids Hr _ IH]; constructor; [|exact IH].
  destruct r; try discriminate. reflexivity.
Qed.

Lemma typed_ids_no_match rs ids n :
  mapM id_of rs = Some ids -> Forall (fun i => i < n) ids ->
  existsb (has_id n) rs = false.
Proof.
  rewrite mapM_Some. induction 1 as [|r i rs ids Hr _ IH]; intros Hlt;
    [reflexivity|].
  apply Forall_cons in Hlt as [Hi Hlt]. simpl. rewrite (IH Hlt), orb_false_r.
  destruct (has_id n r) eqn:E; [|reflexivity].
  apply (has_id_typed n r i Hr) in E. lia.
Qed.

Lemma find_app_cases {A} (f : A -> bool) (l k : list A) :
  List.find f (l ++ k) =
    match List.find f l with
    | Some x => Some x
    | None => List.find f k
    end.
Proof.
  induction l as [|x l IH]; simpl; [reflexivity|].
  destruct (f x); [reflexivity | exact IH].
Qed.

Lemma find_cons {A} (f : A -> bool) (x : A) (l : list A) :
  List.find f (x :: l) = if f x then Some x else List.find f l.
Proof. reflexivity. Qed.

Lemma has_id_same_field i (r r' : pydict) :
  r' !! "id" = r !! "id" -> has_id i (VDict r') = has_id i (VDict r).
Proof. intros H. simpl. now rewrite H. Qed.

(** Splitting a list of dicts at the first element with a given id. *)
Lemma first_match_split recipe_id rs :
  Forall (fun r => is_dict r = true) rs ->
  Forall (other_recipe recipe_id) rs \/
  exists pre r post,
    rs = pre ++ VDict r :: post /\
    Forall (other_recipe recipe_id) pre /\
    has_id recipe_id (VDict r) = true.
Proof.
  induction 1 as [|x rs Hx _ IH]; [left; constructor|].
  destruct (has_id recipe_id x) eqn:E.
  - right. destruct x as [| | | | |d]; try discriminate.
    exists [], d, rs. repeat split; [constructor | exact E].
  - destruct IH as [IH | (pre & r & post & -> & Hpre & Hr)].
    + left. constructor; [split; assumption | exact IH].
    + right. exists (x :: pre), r, post.
      repeat split; [constructor; [split; assumption | exact Hpre] | exact Hr].
Qed.

Lemma other_recipes_no_match recipe_id rs :
  Forall (other_recipe recipe_id) rs -> existsb (has_id recipe_id) rs = false.
Proof.
  induction 1 as [|x rs [_ Hx] _ IH]; simpl; [reflexivity|]. now rewrite Hx.
Qed.

Section Lookups.

Variable time_time : nat -> Z.
Variable int_of_str : string -> option Z.

Lemma update_recipe_found_run w d pre r post recipe_id updates :
  _read_file w = (Ok (VDict d), w) ->
  d !! "recipes" = Some (VList (pre ++ VDict r :: post)) ->
  Forall (other_recipe recipe_id) pre ->
  has_id recipe_id (VDict r) = true ->
  update_recipe time_time recipe_id updates w =
    (Ok (Some (VDict (updated time_time updates r (ticks w)))),
     mkWorld
       (Decoded (VDict (<["recipes" :=
          VList (pre ++ VDict (updated time_time updates r (ticks w)) :: post)]> d)))
       (sessions w) (S (S (S (ticks w))))).
Proof.
  intros Hread Hrs Hpre Hid. unfold update_recipe.
  rewrite (bind_run _ _ _ _ _ Hread).
  unfold py_getitem_str. rewrite Hrs, bind_lift_Ok. simpl py_iter.
  rewrite bind_lift_Ok, update_loop_skip by exact Hpre.
  now apply update_loop_found.
Qed.

Lemma update_recipe_missing_run w d rs recipe_id updates :
  _read_file w = (Ok (VDict d), w) ->
  d !! "recipes" = Some (VList rs) ->
  Forall (other_recipe recipe_id) rs ->
  update_recipe time_time recipe_id updates w = (Ok None, w).
Proof.
  intros Hread Hrs Hall. unfold update_recipe.
  rewrite (bind_run _ _ _ _ _ Hread).
  unfold py_getitem_str. rewrite Hrs, bind_lift_Ok. simpl py_iter.
  rewrite bind_lift_Ok. rewrite <- (app_nil_r rs) at 2.
  now rewrite update_loop_skip.
Qed.

Lemma updated_id updates r k :
  is_Some (r !! "id") ->
  updated time_time updates r k !! "id" = r !! "id".
Proof.
  intros H. apply updated_frame; [discriminate | left; by_decide | now left].
Qed.

(** X1: on a stored document whose recipes are dicts, [get_recipe] returns
    the first recipe whose id equals the argument, returns [None] exactly
    when no recipe has that id, and leaves the state as it was. *)
Theorem get_recipe_first_match w d rs recipe_id :
  file w = Decoded (VDict d) ->
  d !! "recipes" = Some (VList rs) ->
  is_Some (d !! "next_id") ->
  Forall (fun r => is_dict r = true) rs ->
  exists found,
    get_recipe recipe_id w = (Ok found, w) /\
    (found = None <-> existsb (has_id recipe_id) rs = false) /\
    (forall pre r post,
       rs = pre ++ r :: post ->
       existsb (has_id recipe_id) pre = false ->
       has_id recipe_id r = true ->
       found = Some r).
Proof.
  intros Hf Hrs Hn Hd.
  exists (List.find (has_id recipe_id) rs).
  split; [apply (get_recipe_read w d); [apply read_file_dict; eauto | assumption..]|].
  split.
  - split.
    + intros Hnone. destruct (existsb (has_id recipe_id) rs) eqn:E; [|reflexivity].
      apply existsb_exists in E as (x & Hx & Hm).
      now rewrite (find_none _ _ Hnone x Hx) in Hm.
    + apply find_none_existsb.
  - intros pre r post -> Hpre Hr.
    rewrite find_app_none by exact Hpre. rewrite find_cons. now rewrite Hr.
Qed.

(** X2: once [create_recipe] has returned on a store whose ids are
    integers below [next_id], [get_recipe] on the new id returns the recipe
    just created, and the lookup of every other id gives what it gave
    before. *)
Theorem create_then_get w d rs n ids recipe r w' :
  _read_file w = (Ok (VDict d), w) ->
  d !! "recipes" = Some (VList rs) ->
  d !! "next_id" = Some (VInt n) ->
  mapM id_of rs = Some ids ->
  Forall (fun i => i < n) ids ->
  create_recipe time_time int_of_str recipe w = (Ok r, w') ->
  get_recipe n w' = (Ok (Some (VDict r)), w') /\
  forall j, j <> n -> fst (get_recipe j w') = fst (get_recipe j w).
Proof.
  intros Hread Hrs Hn Hids Hlt Hrun.
  pose proof (typed_ids_dicts rs ids Hids) as Hd.
  rewrite (create_recipe_run _ _ w d rs n recipe Hread Hrs Hn) in Hrun.
  injection Hrun as <- <-.
  set (r := created time_time recipe n (ticks w)).
  set (w' := mkWorld _ _ _).
  assert (Hread' : _read_file w' =
            (Ok (VDict (<["next_id" := VInt (n + 1)]>
                          (<["recipes" := VList (rs ++ [VDict r])]> d))), w')).
  { apply read_file_dict; [reflexivity| |].
    - rewrite lookup_insert_ne by discriminate. rewrite lookup_insert_eq. eauto.
    - rewrite lookup_insert_eq. eauto. }
  assert (Hrs' : (<["next_id" := VInt (n + 1)]>
                    (<["recipes" := VList (rs ++ [VDict r])]> d)) !! "recipes"
                 = Some (VList (rs ++ [VDict r]))).
  { rewrite lookup_insert_ne by discriminate. apply lookup_insert_eq. }
  assert (Hd' : Forall (fun x => is_dict x = true) (rs ++ [VDict r])).
  { apply Forall_app. split; [exact Hd | now repeat constructor]. }
  assert (Hr : id_of (VDict r) = Some n) by apply id_of_created.
  split.
  - rewrite (get_recipe_read w' _ _ n Hread' Hrs' Hd').
    rewrite find_app_none by (eapply typed_ids_no_match; eassumption).
    rewrite find_cons. now rewrite (proj2 (has_id_typed n _ n Hr) eq_refl).
  - intros j Hj.
    rewrite (get_recipe_read w' _ _ j Hread' Hrs' Hd').
    rewrite (get_recipe_read w d rs j Hread Hrs Hd). simpl. f_equal.
    rewrite find_app_cases. destruct (List.find (has_id j) rs); [reflexivity|].
    rewrite find_cons. destruct (has_id j (VDict r)) eqn:E; [|reflexivity].
    apply (has_id_typed j _ n Hr) in E. congruence.
Qed.

(** X3: after [delete_recipe] on a stored document whose recipes are dicts,
    [get_recipe] on the deleted id returns [None], whether or not anything
    was deleted, and the lookup of every other id gives what it gave
    before. *)
Theorem delete_then_get w d rs recipe_id :
  file w = Decoded (VDict d) ->
  d !! "recipes" = Some (VList rs) ->
  is_Some (d !! "next_id") ->
  Forall (fun r => is_dict r = true) rs ->
  exists deleted w',
    delete_recipe recipe_id w = (Ok deleted, w') /\
    get_recipe recipe_id w' = (Ok None, w') /\
    forall j, j <> recipe_id -> fst (get_recipe j w') = fst (get_recipe j w).
Proof.
  intros Hf Hrs Hn Hd.
  pose proof (read_file_dict w d Hf (ex_intro _ _ Hrs) Hn) as Hread.
  rewrite (delete_recipe_run w d rs recipe_id Hf Hrs Hn Hd).
  destruct (existsb (has_id recipe_id) rs) eqn:Hex.
  - eexists _, _. split; [reflexivity|].
    set (kept := List.filter (fun r => negb (has_id recipe_id r)) rs).
    set (w' := mkWorld _ _ _).
    assert (Hread' : _read_file w' = (Ok (VDict (<["recipes" := VList kept]> d)), w')).
    { apply read_file_dict; [reflexivity| |].
      - rewrite lookup_insert_eq. eauto.
      - now rewrite lookup_insert_ne by discriminate. }
    assert (Hk : Forall (fun r => is_dict r = true) kept).
    { subst kept. rewrite Forall_forall in *. intros r Hr. apply Hd.
      rewrite list_elem_of_In in *. apply filter_In in Hr. tauto. }
    split.
    + rewrite (get_recipe_read w' _ kept recipe_id Hread' (lookup_insert_eq _ _ _) Hk).
      subst kept. now rewrite find_none_existsb by apply existsb_filter_out.
    + intros j Hj.
      rewrite (get_recipe_read w' _ kept j Hread' (lookup_insert_eq _ _ _) Hk).
      rewrite (get_recipe_read w d rs j Hread Hrs Hd). simpl. f_equal.
      subst kept. apply find_filter_other. intros x Hx.
      destruct (has_id recipe_id x) eqn:E; [|reflexivity].
      elim Hj. eapply has_id_unique; eassumption.
  - exists false, w. split; [reflexivity|]. split; [|reflexivity].
    rewrite (get_recipe_read w d rs recipe_id Hread Hrs Hd).
    now rewrite find_none_existsb.
Qed.

(** X4: once [update_recipe] has returned on a store that holds a recipe
    with the id, what it returned is the updated recipe, [get_recipe] on
    the id returns that same recipe, and the lookup of every other id gives
    what it gave before. *)
Theorem update_then_get w d pre r post recipe_id updates found w' :
  file w = Decoded (VDict d) ->
  d !! "recipes" = Some (VList (pre ++ VDict r :: post)) ->
  is_Some (d !! "next_id") ->
  Forall (other_recipe recipe_id) pre ->
  has_id recipe_id (VDict r) = true ->
  Forall (fun x => is_dict x = true) post ->
  update_recipe time_time recipe_id updates w = (Ok found, w') ->
  exists r',
    found = Some (VDict r') /\
    get_recipe recipe_id w' = (Ok (Some (VDict r')), w') /\
    forall j, j <> recipe_id -> fst (get_recipe j w') = fst (get_recipe j w).
Proof.
  intros Hf Hrs Hn Hpre Hid Hpost Hrun.
  pose proof (read_file_dict w d Hf (ex_intro _ _ Hrs) Hn) as Hread.
  rewrite (update_recipe_found_run w d pre r post _ _ Hread Hrs Hpre Hid) in Hrun.
  injection Hrun as <- <-.
  exists (updated time_time updates r (ticks w)).
  split; [reflexivity|].
  set (r' := updated time_time updates r (ticks w)).
  set (w' := mkWorld _ _ _).
  assert (Hsame : forall j, has_id j (VDict r') = has_id j (VDict r)).
  { intros j. apply has_id_same_field, updated_id.
    now apply has_id_is_Some with recipe_id. }
  assert (Hread' : _read_file w' =
            (Ok (VDict (<["recipes" := VList (pre ++ VDict r' :: post)]> d)), w')).
  { apply read_file_dict; [reflexivity| |].
    - rewrite lookup_insert_eq. eauto.
    - now rewrite lookup_insert_ne by discriminate. }
  assert (Hdpre : Forall (fun x => is_dict x = true) pre).
  { eapply Forall_impl; [exact Hpre|]. now intros x [Hx _]. }
  assert (Hd : forall x, Forall (fun y => is_dict y = true) (pre ++ VDict x :: post)).
  { intros x. apply Forall_app. split; [exact Hdpre | now constructor]. }
  split.
  - rewrite (get_recipe_read w' _ _ recipe_id Hread' (lookup_insert_eq _ _ _) (Hd r')).
    rewrite find_app_none by (now apply other_recipes_no_match).
    rewrite find_cons. now rewrite Hsame, Hid.
  - intros j Hj.
    rewrite (get_recipe_read w' _ _ j Hread' (lookup_insert_eq _ _ _) (Hd r')).
    rewrite (get_recipe_read w d _ j Hread Hrs (Hd r)). simpl. f_equal.
    rewrite !find_app_cases. destruct (List.find (has_id j) pre); [reflexivity|].
    rewrite !find_cons, Hsame. destruct (has_id j (VDict r)) eqn:E; [|reflexivity].
    elim Hj. eapply has_id_unique; eassumption.
Qed.

End Lookups.

(** ** Normalising and stamping *)

Lemma setdefault_key key v (d : pydict) : is_Some (setdefault key v d !! key).
Proof.
  unfold setdefault. destruct (d !! key) eqn:E; [rewrite E; eauto|].
  rewrite lookup_insert_eq. eauto.
Qed.

Lemma setdefault_missing key v (d : pydict) :
  d !! key = None -> setdefault key v d !! key = Some v.
Proof. intros E. unfold setdefault. rewrite E. apply lookup_insert_eq. Qed.

Lemma setdefault_id key v (d : pydict) :
  is_Some (d !! key) -> setdefault key v d = d.
Proof. intros [x E]. unfold setdefault. now rewrite E. Qed.

Lemma normalized_complete t1 t2 recipe k :
  k ∈ normalized_fields -> is_Some (normalized t1 t2 recipe !! k).
Proof.
  intros Hk. unfold normalized_fields in Hk. unfold normalized.
  repeat (apply elem_of_cons in Hk as [->|Hk];
          [repeat first [apply setdefault_key | apply setdefault_is_Some]|]).
  now apply elem_of_nil in Hk.
Qed.

Lemma normalized_id t1 t2 recipe :
  (forall k, k ∈ normalized_fields -> is_Some (recipe !! k)) ->
  normalized t1 t2 recipe = recipe.
Proof.
  intros H. unfold normalized.
  rewrite (setdefault_id "id"), (setdefault_id "title"),
    (setdefault_id "description"), (setdefault_id "ingredients"),
    (setdefault_id "instructions"), (setdefault_id "tags"),
    (setdefault_id "created_at"), (setdefault_id "updated_at")
    by (apply H; by_decide).
  reflexivity.
Qed.

Lemma normalized_default t1 t2 recipe k v :
  In (k, v) field_defaults -> recipe !! k = None ->
  normalized t1 t2 recipe !! k = Some v.
Proof.
  intros Hk Hnone. unfold normalized. simpl in Hk.
  repeat (destruct Hk as [[= <- <-]|Hk];
          [repeat (rewrite setdefault_other by discriminate);
           rewrite setdefault_missing;
           [reflexivity | repeat (rewrite setdefault_other by discriminate); exact Hnone]|]).
  destruct Hk.
Qed.

Section Stamps.

Variable time_time : nat -> Z.
Variable int_of_str : string -> option Z.

(** X5: [_normalize_recipe] never raises and never writes the file; its
    result has all eight recipe fields, keeps every entry the input had,
    adds nothing besides the eight fields, gives a missing field its
    default (no id, empty text, empty list), and is unchanged by a second
    normalisation at any later time. *)
Theorem normalize_recipe_completes recipe w :
  exists r w',
    _normalize_recipe time_time recipe w = (Ok r, w') /\
    file w' = file w /\
    (forall k, k ∈ normalized_fields -> is_Some (r !! k)) /\
    (forall k, is_Some (recipe !! k) -> r !! k = recipe !! k) /\
    (forall k, k ∉ normalized_fields -> r !! k = recipe !! k) /\
    (forall k v, In (k, v) field_defaults -> recipe !! k = None -> r !! k = Some v) /\
    (forall w2, fst (_normalize_recipe time_time r w2) = Ok r).
Proof.
  eexists _, _. split; [apply normalize_recipe_run|].
  split; [reflexivity|].
  split; [intros k; apply normalized_complete|].
  split; [intros k; apply normalized_present|].
  split; [intros k; apply normalized_other|].
  split; [intros k v; apply normalized_default|].
  intros w2. rewrite normalize_recipe_run. simpl. f_equal.
  apply normalized_id. intros k. apply normalized_complete.
Qed.

(** X6: whatever the caller's dict holds under [id], [created_at] and
    [updated_at], the recipe a [create_recipe] call returned has the
    document's [next_id] as id and one and the same clock reading in both
    timestamps; every other entry of the caller's dict is kept, unknown
    keys included, and the eight recipe fields are all present. *)
Theorem create_recipe_stamps w d rs n recipe r w' :
  _read_file w = (Ok (VDict d), w) ->
  d !! "recipes" = Some (VList rs) ->
  d !! "next_id" = Some (VInt n) ->
  create_recipe time_time int_of_str recipe w = (Ok r, w') ->
  exists now,
    r !! "id" = Some (VInt n) /\
    r !! "created_at" = Some (VInt now) /\
    r !! "updated_at" = Some (VInt now) /\
    (forall k, k <> "id" -> k <> "created_at" -> k <> "updated_at" ->
               is_Some (recipe !! k) \/ k ∉ normalized_fields ->
               r !! k = recipe !! k) /\
    (forall k, k ∈ normalized_fields -> is_Some (r !! k)).
Proof.
  intros Hread Hrs Hn Hrun.
  rewrite (create_recipe_run _ _ w d rs n recipe Hread Hrs Hn) in Hrun.
  injection Hrun as <- <-.
  eexists. unfold created.
  split; [rewrite !lookup_insert_ne by discriminate; apply lookup_insert_eq|].
  split; [rewrite lookup_insert_ne by discriminate; apply lookup_insert_eq|].
  split; [apply lookup_insert_eq|].
  split.
  - intros k H1 H2 H3 Hk. rewrite !lookup_insert_ne by congruence.
    destruct Hk; [now apply normalized_present | now apply normalized_other].
  - intros k Hk.
    destruct (decide (k = "updated_at")) as [->|?]; [rewrite lookup_insert_eq; eauto|].
    rewrite lookup_insert_ne by congruence.
    destruct (decide (k = "created_at")) as [->|?]; [rewrite lookup_insert_eq; eauto|].
    rewrite lookup_insert_ne by congruence.
    destruct (decide (k = "id")) as [->|?]; [rewrite lookup_insert_eq; eauto|].
    rewrite lookup_insert_ne by congruence. now apply normalized_complete.
Qed.

End Stamps.

(** ** The id invariant under every mutation *)

Lemma delete_recipe_read w d rs recipe_id :
  _read_file w = (Ok (VDict d), w) ->
  d !! "recipes" = Some (VList rs) ->
  Forall (fun r => is_dict r = true) rs ->
  delete_recipe recipe_id w =
    if existsb (has_id recipe_id) rs
    then (Ok true,
          mkWorld (Decoded (VDict (<["recipes" :=
                     VList (List.filter (fun r => negb (has_id recipe_id r)) rs)]> d)))
                  (sessions w) (ticks w))
    else (Ok false, w).
Proof.
  intros Hread Hrs Hd. unfold delete_recipe.
  rewrite (bind_run _ _ _ _ _ Hread).
  unfold py_getitem_str. rewrite Hrs, bind_lift_Ok. simpl py_len. rewrite bind_lift_Ok.
  rewrite (bind_lift_run _ _ _ _
    (comprehension_typed _ (fun r => negb (has_id recipe_id r)) rs
       (Forall_impl _ _ _ Hd (id_differs_dict recipe_id)))).
  simpl py_setitem_str. rewrite bind_lift_Ok. simpl py_len. rewrite bind_lift_Ok.
  pose proof (filter_length_lt (fun r => negb (has_id recipe_id r)) rs) as Hlt.
  assert (Hex : existsb (fun x => negb (negb (has_id recipe_id x))) rs
                = existsb (has_id recipe_id) rs).
  { clear. induction rs as [|r rs IH]; simpl; [reflexivity|].
    now rewrite negb_involutive, IH. }
  cbv beta in Hlt. rewrite Hex in Hlt.
  destruct (existsb (has_id recipe_id) rs).
  - replace (_ <? _) with true by (symmetry; apply Z.ltb_lt; apply proj2 in Hlt; lia).
    reflexivity.
  - replace (_ <? _) with false; [reflexivity|].
    symmetry; apply Z.ltb_ge.
    destruct (Nat.lt_ge_cases
      (length (List.filter (fun r => negb (has_id recipe_id r)) rs)) (length rs))
      as [H|H]; [apply Hlt in H; discriminate | lia].
Qed.

Lemma typed_ids_filter (f : value -> bool) rs ids :
  Forall2 (fun r i => id_of r = Some i) rs ids ->
  exists ids',
    Forall2 (fun r i => id_of r = Some i) (List.filter f rs) ids' /\
    ids' `sublist_of` ids.
Proof.
  induction 1 as [|r i rs ids Hr _ (ids' & IH & Hsub)]; simpl.
  - exists []. split; constructor.
  - destruct (f r).
    + exists (i :: ids'). split; [now constructor | now apply sublist_skip].
    + exists ids'. split; [exact IH | now apply sublist_cons].
Qed.

Lemma ids_fresh_filter (f : value -> bool) rs n :
  ids_fresh rs n -> ids_fresh (List.filter f rs) n.
Proof.
  intros (ids & Hids & Hnd & Hlt). rewrite mapM_Some in Hids.
  destruct (typed_ids_filter f rs ids Hids) as (ids' & Hids' & Hsub).
  exists ids'. rewrite mapM_Some. split; [exact Hids'|]. split.
  - eapply sublist_NoDup; eassumption.
  - rewrite Forall_forall in *. intros i Hi. apply Hlt.
    eapply elem_of_sublist; eassumption.
Qed.

Lemma ids_fresh_replace pre (r r' : pydict) post n :
  r' !! "id" = r !! "id" ->
  ids_fresh (pre ++ VDict r :: post) n ->
  ids_fresh (pre ++ VDict r' :: post) n.
Proof.
  intros Hid (ids & Hids & Hrest). exists ids. split; [|exact Hrest].
  rewrite mapM_Some in *.
  apply Forall2_app_inv_l in Hids as (k1 & k2 & H1 & H2 & ->).
  apply Forall2_app; [exact H1|].
  inversion H2 as [|x i l k Hx Hl]; subst. constructor; [|exact Hl].
  simpl in *. now rewrite Hid.
Qed.

Lemma ids_fresh_dicts rs n :
  ids_fresh rs n -> Forall (fun r => is_dict r = true) rs.
Proof. intros (ids & Hids & _). eapply typed_ids_dicts, Hids. Qed.

Section Invariant.

Variable time_time : nat -> Z.
Variable int_of_str : string -> option Z.

Lemma store_inv_delete w d rs n recipe_id res w' :
  store_inv w d rs n ->
  delete_recipe recipe_id w = (res, w') ->
  exists d' rs' deleted, res = Ok deleted /\ store_inv w' d' rs' n.
Proof.
  intros (Hread & Hrs & Hn & Hfresh) Hrun.
  rewrite (delete_recipe_read w d rs recipe_id Hread Hrs (ids_fresh_dicts _ _ Hfresh))
    in Hrun.
  destruct (existsb (has_id recipe_id) rs); injection Hrun as <- <-.
  - eexists _, _, _. split; [reflexivity|]. split; [|split; [|split]].
    + apply read_file_dict; [reflexivity| |].
      * rewrite lookup_insert_eq. eauto.
      * rewrite lookup_insert_ne by discriminate. eauto.
    + apply lookup_insert_eq.
    + now rewrite lookup_insert_ne by discriminate.
    + now apply ids_fresh_filter.
  - exists d, rs, false. split; [reflexivity|]. repeat split; assumption.
Qed.

Lemma store_inv_update w d rs n recipe_id updates res w' :
  store_inv w d rs n ->
  update_recipe time_time recipe_id updates w = (res, w') ->
  exists d' rs' found, res = Ok found /\ store_inv w' d' rs' n.
Proof.
  intros (Hread & Hrs & Hn & Hfresh) Hrun.
  destruct (first_match_split recipe_id rs (ids_fresh_dicts _ _ Hfresh))
    as [Hnone | (pre & r & post & -> & Hpre & Hid)].
  - rewrite (update_recipe_missing_run _ w d rs _ _ Hread Hrs Hnone) in Hrun.
    injection Hrun as <- <-. exists d, rs, None.
    split; [reflexivity|]. repeat split; assumption.
  - rewrite (update_recipe_found_run _ w d pre r post _ _ Hread Hrs Hpre Hid) in Hrun.
    injection Hrun as <- <-. eexists _, _, _. split; [reflexivity|].
    split; [|split; [|split]].
    + apply read_file_dict; [reflexivity| |].
      * rewrite lookup_insert_eq. eauto.
      * rewrite lookup_insert_ne by discriminate. eauto.
    + apply lookup_insert_eq.
    + now rewrite lookup_insert_ne by discriminate.
    + eapply ids_fresh_replace; [|exact Hfresh].
      apply updated_id. now apply has_id_is_Some with recipe_id.
Qed.

Lemma reachable_by_mutations_inv w :
  reachable_by_mutations time_time int_of_str w ->
  exists d rs n, store_inv w d rs n.
Proof.
  induction 1 as [w Hread
                 | w recipe res w' _ (d & rs & n & Hinv) Hrun
                 | w recipe_id updates res w' _ (d & rs & n & Hinv) Hrun
                 | w recipe_id res w' _ (d & rs & n & Hinv) Hrun].
  - eexists _, [], 1. split; [exact Hread|].
    split; [reflexivity|]. split; [reflexivity|]. apply ids_fresh_nil.
  - destruct (store_inv_create _ _ w d rs n recipe res w' Hinv Hrun)
      as (d' & r & _ & Hinv'). eauto.
  - destruct (store_inv_update w d rs n recipe_id updates res w' Hinv Hrun)
      as (d' & rs' & found & _ & Hinv'). eauto.
  - destruct (store_inv_delete w d rs n recipe_id res w' Hinv Hrun)
      as (d' & rs' & deleted & _ & Hinv'). eauto.
Qed.

(** X7: in every state reached from a store that reads as the default
    document by any sequence of [create_recipe], [update_recipe] and
    [delete_recipe] calls, the stored recipes are dicts with pairwise
    distinct integer ids, all below the integer [next_id]; and in such a
    state [delete_recipe], [get_recipe] and the unfiltered [list_recipes]
    return without raising. *)
Theorem mutations_keep_ids_distinct w :
  reachable_by_mutations time_time int_of_str w ->
  exists d rs n ids,
    _read_file w = (Ok (VDict d), w) /\
    d !! "recipes" = Some (VList rs) /\
    d !! "next_id" = Some (VInt n) /\
    mapM id_of rs = Some ids /\
    NoDup ids /\
    Forall (fun i => i < n) ids /\
    (forall recipe_id, exists deleted w',
       delete_recipe recipe_id w = (Ok deleted, w')) /\
    (forall recipe_id, exists found, get_recipe recipe_id w = (Ok found, w)) /\
    (forall p s, exists items meta,
       list_recipes None None p s w = (Ok (VList items, meta), w)).
Proof.
  intros Hreach.
  destruct (reachable_by_mutations_inv w Hreach) as (d & rs & n & Hinv).
  pose proof Hinv as (Hread & Hrs & Hn & ids & Hids & Hnd & Hlt).
  exists d, rs, n, ids. repeat (split; [assumption|]).
  split.
  { intros recipe_id.
    destruct (delete_recipe recipe_id w) as [res w'] eqn:E.
    destruct (store_inv_delete w d rs n recipe_id res w' Hinv E)
      as (_ & _ & deleted & -> & _). eauto. }
  split.
  { intros recipe_id. eexists.
    apply (get_recipe_read w d rs recipe_id Hread Hrs).
    eapply typed_ids_dicts, Hids. }
  intros p s. unfold list_recipes.
  rewrite (bind_run _ _ _ _ _ Hread).
  unfold py_getitem_str. rewrite Hrs, bind_lift_Ok, !bind_ret.
  simpl py_len. rewrite bind_lift_Ok. simpl py_slice. rewrite bind_lift_Ok.
  eexists _, _. reflexivity.
Qed.

End Invariant.

(** ** Walking the pages *)

Lemma chunks_concat {A} (size : nat) (l : list A) (n : nat) :
  (length l <= n * size)%nat ->
  flat_map (fun k => firstn size (skipn (k * size) l)) (seq 0 n) = l.
Proof.
  revert l. induction n as [|n IH]; intros l Hlen.
  - destruct l; [reflexivity | simpl in Hlen; lia].
  - rewrite Nat.mul_succ_l in Hlen.
    cbn [seq flat_map]. rewrite <- seq_shift, flat_map_concat_map, map_map.
    rewrite <- flat_map_concat_map.
    rewrite (flat_map_ext _ (fun k => firstn size (skipn (k * size) (skipn size l)))).
    + rewrite IH by (rewrite length_skipn; lia). apply firstn_skipn.
    + intros k. rewrite skipn_skipn. do 2 f_equal. lia.
Qed.

(** X8: walking the pages 1 to [total_pages] of a listing, with any page
    size and any filters, yields the filtered sequence: every kept recipe
    appears on exactly one page, in the stored order. *)
Theorem pages_cover_filtered w d rs q ingredient s :
  file w = Decoded (VDict d) ->
  d !! "recipes" = Some (VList rs) ->
  is_Some (d !! "next_id") ->
  Forall (fun r => is_Some (texts r)) rs ->
  flat_map (fun k => items_of (list_recipes q ingredient (Z.of_nat k + 1) s w))
    (seq 0 (Z.to_nat (pages_of (list_recipes q ingredient 1 s w))))
  = filtered q ingredient rs.
Proof.
  intros Hf Hrs Hn Hty.
  set (kept := filtered q ingredient rs).
  set (size := Z.min (Z.max 1 s) 100).
  assert (Hsize : 1 <= size <= 100) by (subst size; lia).
  rewrite (list_recipes_run w d rs q ingredient 1 s Hf Hrs Hn Hty).
  unfold pages_of, page_of. cbn [fst total_pages]. fold kept size.
  replace (negb (size =? 0)) with true
    by (symmetry; apply negb_true_iff, Z.eqb_neq; lia).
  pose proof (ceil_div_bounds (Z.of_nat (length kept)) size ltac:(lia)) as Hceil.
  set (pages := (Z.of_nat (length kept) + size - 1) / size) in *.
  rewrite (flat_map_ext _
    (fun k => firstn (Z.to_nat size) (skipn (k * Z.to_nat size) kept))).
  - apply chunks_concat. nia.
  - intros k.
    rewrite (list_recipes_run w d rs q ingredient _ s Hf Hrs Hn Hty).
    unfold items_of, page_of. cbn [fst]. fold kept size.
    rewrite slice_list_window by nia. do 2 f_equal.
    replace (Z.max 1 (Z.of_nat k + 1) - 1) with (Z.of_nat k) by lia.
    rewrite Z2Nat.inj_mul by lia. now rewrite Nat2Z.id.
Qed.

(** ** What the operations leave alone *)

Lemma stateless_ret {A} (a : A) : stateless (ret a).
Proof. intros w. reflexivity. Qed.

Lemma stateless_lift {A} (r : result A) : stateless (lift r).
Proof. intros w. reflexivity. Qed.

Lemma stateless_bind {A B} (m : M A) (k : A -> M B) :
  stateless m -> (forall a, stateless (k a)) -> stateless (bind m k).
Proof.
  intros Hm Hk w. unfold bind. specialize (Hm w).
  destruct (m w) as [[a|e] w1]; simpl in Hm; subst w1; [apply Hk | reflexivity].
Qed.

Lemma stateless_read_file : stateless _read_file.
Proof. exact read_file_state. Qed.

(** X9: [list_recipes] and [get_recipe] never change the state: whatever
    the store file holds and whether they return or raise, the file, the
    sessions and the clock are as before. *)
Theorem reads_leave_state w q ingredient p s recipe_id :
  snd (list_recipes q ingredient p s w) = w /\
  snd (get_recipe recipe_id w) = w.
Proof.
  split.
  - revert w. change (stateless (list_recipes q ingredient p s)).
    unfold list_recipes.
    apply stateless_bind; [apply stateless_read_file | intros data].
    apply stateless_bind; [apply stateless_lift | intros recipes].
    apply stateless_bind.
    { destruct q as [qs|]; [|apply stateless_ret].
      destruct (opt_truthy (Some qs)); [apply stateless_lift | apply stateless_ret]. }
    intros recipes1. apply stateless_bind.
    { destruct ingredient as [x|]; [|apply stateless_ret].
      destruct (opt_truthy (Some x)); [apply stateless_lift | apply stateless_ret]. }
    intros recipes2.
    apply stateless_bind; [apply stateless_lift | intros total].
    apply stateless_bind; [apply stateless_lift | intros items].
    apply stateless_ret.
  - revert w. change (stateless (get_recipe recipe_id)).
    unfold get_recipe.
    apply stateless_bind; [apply stateless_read_file | intros data].
    apply stateless_bind; [apply stateless_lift | intros recipes].
    apply stateless_bind; [apply stateless_lift | intros it].
    apply stateless_lift.
Qed.

Lemma quiet_ret {A} (a : A) : quiet (ret a).
Proof. intros w. split; reflexivity. Qed.

Lemma quiet_lift {A} (r : result A) : quiet (lift r).
Proof. intros w. split; reflexivity. Qed.

Lemma quiet_stateless {A} (m : M A) : stateless m -> quiet m.
Proof. intros H w. now rewrite (H w). Qed.

Lemma quiet_bind {A B} (m : M A) (k : A -> M B) :
  quiet m -> (forall a, quiet (k a)) -> quiet (bind m k).
Proof.
  intros Hm Hk w. unfold bind. specialize (Hm w).
  destruct (m w) as [[a|e] w1]; simpl in Hm; [|exact Hm].
  destruct (Hk a w1) as [H1 H2]. destruct Hm as [H3 H4].
  split; congruence.
Qed.

Lemma clean_quiet {A} (ok : A -> bool) (m : M A) : quiet m -> clean_unless ok m.
Proof. intros H w res w' E _. specialize (H w). now rewrite E in H. Qed.

Lemma clean_bind {A B} (ok : B -> bool) (m : M A) (k : A -> M B) :
  quiet m -> (forall a, clean_unless ok (k a)) -> clean_unless ok (bind m k).
Proof.
  intros Hm Hk w res w' E Hres. unfold bind in E. specialize (Hm w).
  destruct (m w) as [[a|e] w1]; simpl in Hm.
  - destruct (Hk a w1 res w' E Hres) as [H1 H2]. destruct Hm as [H3 H4].
    split; congruence.
  - injection E as <- <-. exact Hm.
Qed.

(** Writing and then returning a result inside [ok] is the one way out
    that changes the file. *)
Lemma clean_write_ret {A} (ok : A -> bool) data (a : A) :
  ok a = true -> clean_unless ok (bind (_write_file data) (fun _ => ret a)).
Proof.
  intros Ha w res w' E Hres. injection E as <- <-.
  specialize (Hres a eq_refl). congruence.
Qed.

Section Failures.

Variable time_time : nat -> Z.
Variable int_of_str : string -> option Z.

Lemma quiet_int_time : quiet (int_time time_time).
Proof. intros w. split; reflexivity. Qed.

Lemma quiet_normalize recipe : quiet (_normalize_recipe time_time recipe).
Proof. intros w. split; reflexivity. Qed.

Lemma clean_update_loop recipe_id updates data recipes rest :
  forall i,
    clean_unless (fun found : option value => match found with Some _ => true | None => false end)
      (update_loop time_time recipe_id updates data recipes i rest).
Proof.
  induction rest as [|r rest IH]; intros i; simpl.
  - apply clean_quiet, quiet_ret.
  - apply clean_bind; [apply quiet_lift | intros rid].
    destruct (py_eq_int rid recipe_id); [|apply IH].
    destruct r; try (apply clean_quiet; intros w; split; reflexivity).
    apply clean_bind; [apply quiet_int_time | intros now].
    apply clean_bind; [apply quiet_normalize | intros d'].
    apply clean_bind; [apply quiet_lift | intros recipes'].
    apply clean_bind; [apply quiet_lift | intros data'].
    now apply clean_write_ret.
Qed.

(** X10: the three mutations write nothing unless they succeed: for every
    state, whatever the file holds, when [create_recipe] raises, when
    [update_recipe] raises or returns [None], and when [delete_recipe]
    raises or returns [False], the store file and the sessions are what
    they were before the call. *)
Theorem failed_mutations_write_nothing w :
  (forall recipe e w',
     create_recipe time_time int_of_str recipe w = (Raise e, w') ->
     file w' = file w /\ sessions w' = sessions w) /\
  (forall recipe_id updates res w',
     update_recipe time_time recipe_id updates w = (res, w') ->
     (forall r, res <> Ok (Some r)) ->
     file w' = file w /\ sessions w' = sessions w) /\
  (forall recipe_id res w',
     delete_recipe recipe_id w = (res, w') ->
     res <> Ok true ->
     file w' = file w /\ sessions w' = sessions w).
Proof.
  split; [|split].
  - intros recipe e w' E.
    assert (H : clean_unless (fun _ : pydict => true)
                  (create_recipe time_time int_of_str recipe)).
    { unfold create_recipe.
      apply clean_bind; [apply quiet_stateless, stateless_read_file | intros data].
      apply clean_bind; [apply quiet_normalize | intros r].
      apply clean_bind; [apply quiet_lift | intros next_id].
      apply clean_bind; [apply quiet_lift | intros id].
      apply clean_bind; [apply quiet_int_time | intros now].
      apply clean_bind; [apply quiet_lift | intros recipes].
      apply clean_bind; [apply quiet_lift | intros recipes'].
      apply clean_bind; [apply quiet_lift | intros data1].
      apply clean_bind; [apply quiet_lift | intros data2].
      now apply clean_write_ret. }
    apply (H w _ w' E). intros a. discriminate.
  - intros recipe_id updates res w' E Hres.
    assert (H : clean_unless
                  (fun found : option value =>
                     match found with Some _ => true | None => false end)
                  (update_recipe time_time recipe_id updates)).
    { unfold update_recipe.
      apply clean_bind; [apply quiet_stateless, stateless_read_file | intros data].
      apply clean_bind; [apply quiet_lift | intros recipes].
      apply clean_bind; [apply quiet_lift | intros it].
      apply clean_update_loop. }
    apply (H w res w' E). intros [r|] ->; [now elim (Hres r) | reflexivity].
  - intros recipe_id res w' E Hres.
    assert (H : clean_unless (fun deleted : bool => deleted)
                  (delete_recipe recipe_id)).
    { unfold delete_recipe.
      apply clean_bind; [apply quiet_stateless, stateless_read_file | intros data].
      apply clean_bind; [apply quiet_lift | intros recipes].
      apply clean_bind; [apply quiet_lift | intros before].
      apply clean_bind; [apply quiet_lift | intros kept].
      apply clean_bind; [apply quiet_lift | intros data1].
      apply clean_bind; [apply quiet_lift | intros after].
      destruct (after <? before);
        [now apply clean_write_ret | apply clean_quiet, quiet_ret]. }
    apply (H w res w' E). intros [|] ->; [now elim Hres | reflexivity].
Qed.

End Failures.

(** ** Characters of a token *)

Lemma has_char_app c a b : has_char c (String.append a b) = has_char c a || has_char c b.
Proof. induction a as [|x a IH]; simpl; [reflexivity|]. now rewrite IH, orb_assoc. Qed.

Lemma pretty_N_char_digit y : has_char (pretty_N_char y) "0123456789" = true.
Proof. unfold pretty_N_char. repeat case_match; reflexivity. Qed.

Lemma has_char_other c c' s :
  has_char c s = false -> has_char c' s = true -> Ascii.eqb c c' = false.
Proof.
  intros Hc Hc'. destruct (Ascii.eqb c c') eqn:E; [|reflexivity].
  apply Ascii.eqb_eq in E as ->. congruence.
Qed.

Lemma pretty_N_go_chars c x s :
  has_char c "0123456789" = false -> has_char c s = false ->
  has_char c (pretty_N_go x s) = false.
Proof.
  intros Hc. revert s. induction (N.lt_wf_0 x) as [x _ IH]; intros s Hs.
  assert (x = 0 \/ 0 < x)%N as [->|Hx] by lia.
  - now rewrite pretty_N_go_0.
  - rewrite pretty_N_go_step by exact Hx. apply IH.
    + now apply N.div_lt.
    + simpl. rewrite Hs, orb_false_r.
      eapply has_char_other; [exact Hc | apply pretty_N_char_digit].
Qed.

(** [str(n)] of an integer consists of digits and a minus sign. *)
Lemma pretty_Z_chars c (z : Z) :
  has_char c "0123456789-" = false -> has_char c (pretty z) = false.
Proof.
  intros Hc.
  assert (Hd : has_char c "0123456789" = false).
  { change "0123456789-" with (String.append "0123456789" "-") in Hc.
    rewrite has_char_app in Hc. now apply orb_false_iff in Hc. }
  assert (Hdash : Ascii.eqb c "-" = false).
  { eapply has_char_other; [exact Hc | reflexivity]. }
  assert (HN : forall n : N, has_char c (pretty n) = false).
  { intros n. unfold pretty, pretty_N. case_decide.
    - eapply has_char_other in Hd; [|instantiate (1 := "0"%char); reflexivity].
      simpl. now rewrite Hd.
    - now apply pretty_N_go_chars. }
  destruct z as [|x|x]; unfold pretty, pretty_Z.
  - eapply has_char_other in Hd; [|instantiate (1 := "0"%char); reflexivity].
    simpl. now rewrite Hd.
  - apply HN.
  - change (has_char c (String "-" (pretty (N.pos x))) = false).
    simpl. rewrite Hdash. apply HN.
Qed.

(** Two strings cut at their last separator agree on both parts. *)
Lemma split_at_last c (u1 u2 p1 p2 : string) :
  has_char c p1 = false -> has_char c p2 = false ->
  String.append u1 (String c p1) = String.append u2 (String c p2) ->
  u1 = u2 /\ p1 = p2.
Proof.
  intros H1 H2. revert u2. induction u1 as [|a u1 IH]; intros u2 E.
  - destruct u2 as [|b u2]; simpl in E.
    + now injection E.
    + injection E as -> E. rewrite E, has_char_app in H1. simpl in H1.
      rewrite Ascii.eqb_refl, orb_true_r in H1. discriminate.
  - destruct u2 as [|b u2]; simpl in E.
    + injection E as -> E. rewrite <- E, has_char_app in H2. simpl in H2.
      rewrite Ascii.eqb_refl, orb_true_r in H2. discriminate.
    + injection E as -> E. destruct (IH u2 E) as [-> ->]. now split.
Qed.

Lemma make_token_inj u1 u2 (t1 t2 : Z) :
  make_token u1 t1 = make_token u2 t2 -> u1 = u2 /\ t1 = t2.
Proof.
  unfold make_token. intros E. simpl in E. injection E as E.
  apply split_at_last in E as [-> E]; try (apply pretty_Z_chars; reflexivity).
  split; [reflexivity|]. now apply (inj pretty).
Qed.

Section SessionFrames.

Variable time_time : nat -> Z.

(** X11: two [create_session] calls return the same token only when they
    are for the same user id and read the same second from the clock:
    sessions of different users, or of one user at different seconds, never
    share a token. *)
Theorem tokens_differ w1 w2 user1 name1 user2 name2 :
  user1 <> user2 \/ time_time (ticks w1) <> time_time (ticks w2) ->
  exists token1 token2 w1' w2',
    create_session time_time user1 name1 w1 = (Ok token1, w1') /\
    create_session time_time user2 name2 w2 = (Ok token2, w2') /\
    token1 <> token2.
Proof.
  intros Hdiff. eexists _, _, _, _.
  split; [apply create_session_run|]. split; [apply create_session_run|].
  intros E. apply make_token_inj in E as [Hu Ht]. tauto.
Qed.

(** X12: the session operations leave the store file and every other
    token's record alone: after [create_session] the lookup of any token
    other than the new one gives what it gave before, after
    [delete_session] the lookup of any other token gives what it gave
    before, and [get_session] leaves the whole state as it was. *)
Theorem sessions_are_independent w user name token other :
  (exists new w',
     create_session time_time user name w = (Ok new, w') /\
     file w' = file w /\
     (other <> new -> fst (get_session other w') = fst (get_session other w))) /\
  (exists w',
     delete_session token w = (Ok tt, w') /\
     file w' = file w /\
     (other <> token -> fst (get_session other w') = fst (get_session other w))) /\
  snd (get_session token w) = w.
Proof.
  split; [|split].
  - eexists _, _. split; [apply create_session_run|]. split; [reflexivity|].
    intros Hne. rewrite !get_session_run. cbn [fst sessions].
    now rewrite lookup_insert_ne by congruence.
  - eexists. split; [apply delete_session_run|]. split; [reflexivity|].
    intros Hne. rewrite !get_session_run. cbn [fst sessions].
    now rewrite lookup_delete_ne by congruence.
  - reflexivity.
Qed.

End SessionFrames.

(** ** Removing the Bearer prefix *)

Lemma is_substring_cons needle c hay :
  is_substring needle (String c hay) =
    String.prefix needle (String c hay) || is_substring needle hay.
Proof. reflexivity. Qed.

Lemma is_substring_nil needle :
  is_substring needle "" = String.prefix needle "" || false.
Proof. reflexivity. Qed.

Lemma prefix_nil_r needle : needle <> "" -> String.prefix needle "" = false.
Proof. destruct needle; [congruence | reflexivity]. Qed.

Lemma last_is_nonempty c needle : last_is c needle = true -> needle <> "".
Proof. destruct needle; [discriminate | discriminate]. Qed.

Lemma prefix_nil_l hay : String.prefix "" hay = true.
Proof. now destruct hay. Qed.

Lemma prefix_cons a n x hay :
  String.prefix (String a n) (String x hay) =
    if ascii_dec a x then String.prefix n hay else false.
Proof. reflexivity. Qed.

(** A needle that ends with a character the hay does not have is no prefix
    of it. *)
Lemma prefix_clean_false c needle :
  last_is c needle = true ->
  forall suf, has_char c suf = false -> String.prefix needle suf = false.
Proof.
  induction needle as [|a n IH]; intros Hlast suf Hsuf; [discriminate|].
  destruct suf as [|x suf]; [reflexivity|].
  rewrite prefix_cons. destruct (ascii_dec a x) as [->|_]; [|reflexivity].
  simpl in Hsuf. apply orb_false_iff in Hsuf as [Hx Hsuf].
  destruct n as [|b n].
  - simpl in Hlast. congruence.
  - now apply IH.
Qed.

(** Such a needle cannot reach into a suffix without that character. *)
Lemma prefix_app_clean c needle :
  last_is c needle = true ->
  forall suf, has_char c suf = false ->
  forall y, String.prefix needle (String.append y suf) = String.prefix needle y.
Proof.
  induction needle as [|a n IH]; intros Hlast suf Hsuf y; [discriminate|].
  destruct y as [|x y].
  - simpl String.append. rewrite (prefix_clean_false c) by assumption.
    reflexivity.
  - change (String.append (String x y) suf) with (String x (String.append y suf)).
    rewrite !prefix_cons.
    destruct (ascii_dec a x); [|reflexivity].
    destruct n as [|b n]; [now rewrite !prefix_nil_l|].
    now apply IH.
Qed.

Lemma is_substring_clean_false c needle :
  last_is c needle = true ->
  forall suf, has_char c suf = false -> is_substring needle suf = false.
Proof.
  intros Hlast. induction suf as [|x suf IH]; intros Hsuf.
  - rewrite is_substring_nil. now rewrite (prefix_clean_false c).
  - rewrite is_substring_cons, (prefix_clean_false c) by assumption.
    simpl in Hsuf. apply orb_false_iff in Hsuf as [_ Hsuf]. now apply IH.
Qed.

Lemma is_substring_app_clean c needle suf :
  last_is c needle = true -> has_char c suf = false ->
  forall x, is_substring needle (String.append x suf) = is_substring needle x.
Proof.
  intros Hlast Hsuf. induction x as [|a x IH].
  - change (String.append "" suf) with suf.
    rewrite (is_substring_clean_false c) by assumption.
    rewrite is_substring_nil.
    now rewrite (prefix_clean_false c) by (assumption || reflexivity).
  - change (String.append (String a x) suf) with (String a (String.append x suf)).
    rewrite !is_substring_cons, IH.
    change (String a (String.append x suf)) with (String.append (String a x) suf).
    now rewrite (prefix_app_clean c).
Qed.

(** A token contains "Bearer " only if the user id does. *)
Lemma token_without_bearer user (t : Z) :
  is_substring "Bearer " user = false ->
  is_substring "Bearer " (make_token user t) = false.
Proof.
  intros Hu. unfold make_token.
  change (String.append "token_" ?x) with
    (String "t" (String "o" (String "k" (String "e" (String "n" (String "_" x)))))).
  rewrite !is_substring_cons, !prefix_cons. simpl orb.
  rewrite (is_substring_app_clean " " "Bearer "); [exact Hu | reflexivity |].
  simpl. apply pretty_Z_chars. reflexivity.
Qed.

Lemma replace_from_skip old new a b :
  replace_from old new (String.length a) (String.append a b) =
  replace_from old new 0 b.
Proof. induction a as [|c a IH]; simpl; [reflexivity | exact IH]. Qed.

Lemma prefix_app_self a b : String.prefix a (String.append a b) = true.
Proof. apply prefix_spec. now exists b. Qed.

(** Removing a leading occurrence. *)
Lemma replace_from_leading c old new t :
  replace_from (String c old) new 0 (String.append (String c old) t) =
  String.append new (replace_from (String c old) new 0 t).
Proof.
  change (String.append (String c old) t) with (String c (String.append old t)).
  cbn [replace_from].
  change (String c (String.append old t)) with (String.append (String c old) t).
  rewrite prefix_app_self.
  replace (String.length (String c old) - 1)%nat with (String.length old)
    by (simpl; lia).
  now rewrite replace_from_skip.
Qed.

(** Nothing to replace: the string comes back as it is. *)
Lemma replace_from_absent old new t :
  is_substring old t = false -> replace_from old new 0 t = t.
Proof.
  induction t as [|c t IH]; intros H; [reflexivity|].
  rewrite is_substring_cons in H. apply orb_false_iff in H as [Hp Ht].
  cbn [replace_from]. rewrite Hp. now rewrite IH.
Qed.

Lemma bearer_token_of_header token :
  is_substring "Bearer " token = false ->
  bearer_token (Some (String.append "Bearer " token)) = token.
Proof.
  intros H. unfold bearer_token, str_replace.
  rewrite replace_from_leading. now rewrite replace_from_absent.
Qed.

(** ** The auth routes *)

Section AuthRoutes.

Variable time_time : nat -> Z.

Lemma login_post_run username w :
  login_post time_time username w =
    (Ok (Returned (VDict {[ "success" := VBool true;
                            "token" := VStr (make_token username (time_time (ticks w)));
                            "user" := user_body username username ]})),
     snd (create_session time_time username username w)).
Proof. reflexivity. Qed.

Lemma make_token_truthy user t : truthy (VStr (make_token user t)) = true.
Proof. reflexivity. Qed.

(** X13: for a user name that does not contain "Bearer ", the token that
    the login route returns, sent back as "Bearer <token>", makes the me
    route answer with that user's id and name; the logout route with the
    same header succeeds, and afterwards the me route answers 401. *)
Theorem login_me_logout w username :
  is_substring "Bearer " username = false ->
  exists token w1 w2,
    login_post time_time username w =
      (Ok (Returned (VDict {[ "success" := VBool true;
                              "token" := VStr token;
                              "user" := user_body username username ]})), w1) /\
    me_get (Some (String.append "Bearer " token)) w1 =
      (Ok (Returned (VDict {[ "success" := VBool true;
                              "user" := user_body username username ]})), w1) /\
    logout_post (Some (String.append "Bearer " token)) w1 =
      (Ok (Returned (VDict {[ "success" := VBool true ]})), w2) /\
    me_get (Some (String.append "Bearer " token)) w2 =
      (Ok (Aborted 401 "Unauthorized"), w2).
Proof.
  intros Huser.
  set (token := make_token username (time_time (ticks w))).
  assert (Hheader : bearer_token (Some (String.append "Bearer " token)) = token).
  { apply bearer_token_of_header. now apply token_without_bearer. }
  exists token. eexists _, _.
  split; [apply login_post_run|].
  rewrite create_session_run. cbn [snd].
  unfold me_get, logout_post. rewrite Hheader.
  assert (Htruthy : truthy (VStr token) = true) by apply make_token_truthy.
  rewrite !Htruthy. cbn [negb]. fold token.
  split.
  { rewrite (bind_run _ _ _ _ _ (get_session_run _ _)). cbn [sessions].
    now rewrite lookup_insert_eq. }
  split.
  { rewrite (bind_run _ _ _ _ _ (delete_session_run _ _)). reflexivity. }
  rewrite (bind_run _ _ _ _ _ (get_session_run _ _)). cbn [sessions].
  now rewrite lookup_delete_eq.
Qed.

End AuthRoutes.

(** ** The recipe routes *)

Lemma dict_with_key_truthy (d : pydict) key :
  is_Some (d !! key) -> truthy (VDict d) = true.
Proof.
  intros [v Hv]. simpl. apply negb_true_iff, Nat.eqb_neq.
  intros H0. apply map_size_empty_iff in H0. subst d.
  now rewrite lookup_empty in Hv.
Qed.

Lemma has_id_truthy recipe_id r : has_id recipe_id r = true -> truthy r = true.
Proof.
  destruct r as [| | | | |d]; try discriminate. intros H.
  apply (dict_with_key_truthy d "id"). now apply has_id_is_Some with recipe_id.
Qed.

Lemma find_existsb {A} (f : A -> bool) (l : list A) :
  existsb f l = true -> exists x, List.find f l = Some x /\ f x = true.
Proof.
  induction l as [|x l IH]; simpl; [discriminate|].
  destruct (f x) eqn:E; [eauto | exact IH].
Qed.

Section RecipeRoutes.

Variable time_time : nat -> Z.
Variable int_of_str : string -> option Z.

Lemma recipe_item_get_read w d rs recipe_id :
  _read_file w = (Ok (VDict d), w) ->
  d !! "recipes" = Some (VList rs) ->
  Forall (fun r => is_dict r = true) rs ->
  recipe_item_get recipe_id w =
    (Ok (match List.find (has_id recipe_id) rs with
         | Some r => Returned (VDict {[ "success" := VBool true; "data" := r ]})
         | None => Aborted 404 "Recipe not found"
         end), w).
Proof.
  intros Hread Hrs Hd. unfold recipe_item_get.
  rewrite (bind_run _ _ _ _ _ (get_recipe_read w d rs recipe_id Hread Hrs Hd)).
  destruct (List.find (has_id recipe_id) rs) as [r|] eqn:E; [|reflexivity].
  apply find_some in E as [_ E]. cbn [opt_value_truthy].
  now rewrite (has_id_truthy _ _ E).
Qed.

Lemma recipe_item_delete_read w d rs recipe_id :
  _read_file w = (Ok (VDict d), w) ->
  d !! "recipes" = Some (VList rs) ->
  Forall (fun r => is_dict r = true) rs ->
  recipe_item_delete recipe_id w =
    if existsb (has_id recipe_id) rs
    then (Ok (Returned (VDict {[ "success" := VBool true ]})),
          mkWorld (Decoded (VDict (<["recipes" :=
                     VList (List.filter (fun r => negb (has_id recipe_id r)) rs)]> d)))
                  (sessions w) (ticks w))
    else (Ok (Aborted 404 "Recipe not found"), w).
Proof.
  intros Hread Hrs Hd. unfold recipe_item_delete, bind.
  rewrite (delete_recipe_read w d rs recipe_id Hread Hrs Hd).
  now destruct (existsb (has_id recipe_id) rs).
Qed.

(** X14: on a stored document whose recipes are dicts, the view functions
    of the item routes leave through [abort(404, message="Recipe not
    found")] exactly when no stored recipe has the id, and then leave the
    state as it was; otherwise the GET view returns the envelope holding
    the recipe [get_recipe] finds, a PUT view that comes back returns the
    envelope holding the updated recipe, and the DELETE view returns the
    success envelope.  A stored recipe is never taken for a missing one.
    This is about what the view functions hand to the response decorator,
    not about the bytes of the HTTP response. *)
Theorem item_routes_404_iff_missing w d rs recipe_id json_data :
  file w = Decoded (VDict d) ->
  d !! "recipes" = Some (VList rs) ->
  is_Some (d !! "next_id") ->
  Forall (fun r => is_dict r = true) rs ->
  let missing := negb (existsb (has_id recipe_id) rs) in
  let not_found : http value := Aborted 404 "Recipe not found" in
  (exists resp,
     recipe_item_get recipe_id w = (Ok resp, w) /\
     (resp = not_found <-> missing = true) /\
     (missing = false -> exists r,
        get_recipe recipe_id w = (Ok (Some r), w) /\
        resp = Returned (VDict {[ "success" := VBool true; "data" := r ]}))) /\
  (missing = true ->
     recipe_item_put time_time json_data recipe_id w = (Ok not_found, w)) /\
  (forall resp w',
     recipe_item_put time_time json_data recipe_id w = (Ok resp, w') ->
     (resp = not_found <-> missing = true) /\
     (missing = true -> w' = w) /\
     (missing = false -> exists r,
        update_recipe time_time recipe_id json_data w = (Ok (Some r), w') /\
        resp = Returned (VDict {[ "success" := VBool true; "data" := r ]}))) /\
  (exists resp w',
     recipe_item_delete recipe_id w = (Ok resp, w') /\
     (resp = not_found <-> missing = true) /\
     (missing = true -> w' = w) /\
     (missing = false ->
        resp = Returned (VDict {[ "success" := VBool true ]}))).
Proof.
  intros Hf Hrs Hn Hd missing not_found.
  pose proof (read_file_dict w d Hf (ex_intro _ _ Hrs) Hn) as Hread.
  split; [|split; [|split]].
  - eexists. split; [apply (recipe_item_get_read w d rs _ Hread Hrs Hd)|].
    rewrite (get_recipe_read w d rs recipe_id Hread Hrs Hd).
    subst missing. destruct (existsb (has_id recipe_id) rs) eqn:E; simpl.
    + destruct (find_existsb _ _ E) as (r & -> & _).
      split; [split; discriminate|]. intros _. now exists r.
    + rewrite (find_none_existsb _ _ E).
      split; [split; reflexivity | discriminate].
  - subst missing. intros Hmiss. unfold recipe_item_put.
    destruct (first_match_split recipe_id rs Hd)
      as [Hnone | (pre & r & post & -> & Hpre & Hid)].
    + now rewrite (bind_run _ _ _ _ _
                 (update_recipe_missing_run _ w d rs _ json_data Hread Hrs Hnone)).
    + rewrite existsb_app in Hmiss. cbn [existsb] in Hmiss.
      rewrite Hid, orb_true_r in Hmiss. discriminate Hmiss.
  - subst missing. intros resp w'. unfold recipe_item_put.
    destruct (first_match_split recipe_id rs Hd)
      as [Hnone | (pre & r & post & -> & Hpre & Hid)].
    + rewrite (other_recipes_no_match _ _ Hnone). simpl negb.
      rewrite (update_recipe_missing_run _ w d rs _ json_data Hread Hrs Hnone).
      rewrite (bind_run _ _ _ _ _
                 (update_recipe_missing_run _ w d rs _ json_data Hread Hrs Hnone)).
      cbn [opt_value_truthy negb]. intros [= <- <-].
      repeat split; discriminate.
    + assert (Hex : existsb (has_id recipe_id) (pre ++ VDict r :: post) = true).
      { rewrite existsb_app. cbn [existsb]. rewrite Hid. now rewrite orb_true_r. }
      rewrite Hex. simpl negb.
      pose proof (update_recipe_found_run time_time w d pre r post _ json_data
                    Hread Hrs Hpre Hid) as Hrun.
      rewrite Hrun, (bind_run _ _ _ _ _ Hrun).
      cbn [opt_value_truthy].
      rewrite (dict_with_key_truthy _ "updated_at")
        by (rewrite updated_stamp; eauto).
      cbn [negb]. intros [= <- <-].
      split; [split; discriminate|]. split; [discriminate|].
      intros _. eexists. split; reflexivity.
  - subst missing.
    rewrite (recipe_item_delete_read w d rs _ Hread Hrs Hd).
    destruct (existsb (has_id recipe_id) rs); simpl.
    + eexists _, _. split; [reflexivity|].
      split; [split; discriminate|]. split; [discriminate | reflexivity].
    + exists not_found, w. repeat split; discriminate.
Qed.

(** X15: when the POST view has come back on a store whose ids are below
    [next_id], the value it returned is the envelope holding the created
    recipe; the GET view of the item route returns that same envelope under
    the recipe's id; after the DELETE view has removed the recipe, the GET
    view leaves through [abort(404)], and so does a second DELETE.  This is
    about what the view functions hand to the response decorator, not
    about the bytes of the HTTP response. *)
Theorem post_get_delete_routes w d rs n ids json_data resp w1 :
  _read_file w = (Ok (VDict d), w) ->
  d !! "recipes" = Some (VList rs) ->
  d !! "next_id" = Some (VInt n) ->
  mapM id_of rs = Some ids ->
  Forall (fun i => i < n) ids ->
  recipes_post time_time int_of_str json_data w = (Ok resp, w1) ->
  exists r w2,
    resp = Returned (VDict {[ "success" := VBool true; "data" := VDict r ]}) /\
    r !! "id" = Some (VInt n) /\
    recipe_item_get n w1 =
      (Ok (Returned (VDict {[ "success" := VBool true; "data" := VDict r ]})), w1) /\
    recipe_item_delete n w1 =
      (Ok (Returned (VDict {[ "success" := VBool true ]})), w2) /\
    recipe_item_get n w2 = (Ok (Aborted 404 "Recipe not found"), w2) /\
    recipe_item_delete n w2 = (Ok (Aborted 404 "Recipe not found"), w2).
Proof.
  intros Hread Hrs Hn Hids Hlt Hpost.
  pose proof (typed_ids_dicts rs ids Hids) as Hd.
  pose proof (typed_ids_no_match rs ids n Hids Hlt) as Hfree.
  unfold recipes_post in Hpost.
  rewrite (bind_run _ _ _ _ _ (create_recipe_run _ _ w d rs n json_data Hread Hrs Hn))
    in Hpost.
  injection Hpost as <- <-.
  set (r := created time_time json_data n (ticks w)).
  assert (Hr : id_of (VDict r) = Some n) by apply id_of_created.
  assert (Hrid : has_id n (VDict r) = true)
    by (now apply (has_id_typed n _ n Hr)).
  set (d1 := <["next_id" := VInt (n + 1)]> (<["recipes" := VList (rs ++ [VDict r])]> d)).
  set (w1 := mkWorld (Decoded (VDict d1)) (sessions w) (S (S (S (ticks w))))).
  set (d2 := <["recipes" := VList rs]> d1).
  set (w2 := mkWorld (Decoded (VDict d2)) (sessions w1) (ticks w1)).
  assert (Hrs1 : d1 !! "recipes" = Some (VList (rs ++ [VDict r]))).
  { subst d1. rewrite lookup_insert_ne by discriminate. apply lookup_insert_eq. }
  assert (Hread1 : _read_file w1 = (Ok (VDict d1), w1)).
  { apply read_file_dict; [reflexivity | eauto |].
    subst d1. rewrite lookup_insert_eq. eauto. }
  assert (Hd1 : Forall (fun x => is_dict x = true) (rs ++ [VDict r])).
  { apply Forall_app. split; [exact Hd | now repeat constructor]. }
  assert (Hkept : List.filter (fun x => negb (has_id n x)) (rs ++ [VDict r]) = rs).
  { rewrite List.filter_app. cbn [List.filter]. rewrite Hrid. cbn [negb].
    rewrite app_nil_r. clear -Hfree.
    induction rs as [|x rs IH]; simpl in *; [reflexivity|].
    apply orb_false_iff in Hfree as [Hx Hfree]. rewrite Hx. simpl.
    now rewrite IH. }
  assert (Hread2 : _read_file w2 = (Ok (VDict d2), w2)).
  { apply read_file_dict; [reflexivity| |]; subst d2 d1.
    - rewrite lookup_insert_eq. eauto.
    - rewrite lookup_insert_ne by discriminate. rewrite lookup_insert_eq. eauto. }
  exists r, w2.
  split; [reflexivity|].
  split.
  { subst r. unfold created.
    rewrite !lookup_insert_ne by discriminate. apply lookup_insert_eq. }
  split.
  { rewrite (recipe_item_get_read w1 d1 _ n Hread1 Hrs1 Hd1).
    rewrite find_app_none by exact Hfree. rewrite find_cons. now rewrite Hrid. }
  split.
  { rewrite (recipe_item_delete_read w1 d1 _ n Hread1 Hrs1 Hd1).
    rewrite existsb_app. cbn [existsb]. rewrite Hrid, orb_true_r.
    rewrite Hkept. reflexivity. }
  split.
  - rewrite (recipe_item_get_read w2 d2 rs n Hread2 (lookup_insert_eq _ _ _) Hd).
    now rewrite find_none_existsb.
  - rewrite (recipe_item_delete_read w2 d2 rs n Hread2 (lookup_insert_eq _ _ _) Hd).
    now rewrite Hfree.
Qed.

End RecipeRoutes.

(** ** Validated paging and the filters' case *)

Lemma validate_pagination_ints (data : pydict) p s :
  data !! "page" = Some (VInt p) ->
  data !! "page_size" = Some (VInt s) ->
  validate_pagination data =
    Ok (if p <? 1 then ValidationError "page must be >= 1" "page"
        else if (s <? 1) || (100 <? s)
             then ValidationError "page_size must be between 1 and 100" "page_size"
             else Valid).
Proof.
  intros Hp Hs. unfold validate_pagination, py_get. rewrite Hp, Hs.
  cbn [rbind py_lt_int py_gt_int].
  destruct (p <? 1); [reflexivity|].
  destruct (s <? 1); [reflexivity|]. cbn [rbind orb].
  now destruct (100 <? s).
Qed.

(** X16: for integer [page] and [page_size], [validate_pagination] accepts
    exactly [page >= 1] with [1 <= page_size <= 100], reports a bad page
    before a bad page size, and accepts the schema defaults of an empty
    query; what it accepts, [list_recipes] uses unclamped: the listing
    reports the requested page and page size and cuts its window with
    them. *)
Theorem validated_paging_is_unclamped w d rs q ingredient (data : pydict) p s :
  file w = Decoded (VDict d) ->
  d !! "recipes" = Some (VList rs) ->
  is_Some (d !! "next_id") ->
  Forall (fun r => is_Some (texts r)) rs ->
  data !! "page" = Some (VInt p) ->
  data !! "page_size" = Some (VInt s) ->
  (validate_pagination data = Ok Valid <-> 1 <= p /\ 1 <= s <= 100) /\
  (p < 1 ->
   validate_pagination data = Ok (ValidationError "page must be >= 1" "page")) /\
  validate_pagination ∅ = Ok Valid /\
  (validate_pagination data = Ok Valid ->
   exists items meta,
     list_recipes q ingredient p s w = (Ok (VList items, meta), w) /\
     page meta = p /\ page_size meta = s /\
     items = firstn (Z.to_nat s)
               (skipn (Z.to_nat ((p - 1) * s)) (filtered q ingredient rs))).
Proof.
  intros Hf Hrs Hn Hty Hp Hs.
  rewrite (validate_pagination_ints data p s Hp Hs).
  assert (Hiff : Ok (if p <? 1 then ValidationError "page must be >= 1" "page"
                     else if (s <? 1) || (100 <? s)
                          then ValidationError "page_size must be between 1 and 100"
                                 "page_size"
                          else Valid) = Ok Valid <-> 1 <= p /\ 1 <= s <= 100).
  { destruct (p <? 1) eqn:E1; [split; [discriminate | lia]|].
    destruct (s <? 1) eqn:E2; [split; [discriminate | lia]|].
    destruct (100 <? s) eqn:E3; [split; [discriminate | lia]|].
    split; [lia | reflexivity]. }
  split; [exact Hiff|].
  split; [intros Hlow; now replace (p <? 1) with true by lia|].
  split; [reflexivity|].
  intros Hvalid. apply Hiff in Hvalid as [Hp1 Hs1].
  rewrite (list_recipes_run w d rs q ingredient p s Hf Hrs Hn Hty).
  rewrite (Z.max_r 1 p), (Z.max_r 1 s), (Z.min_l s 100) by lia.
  unfold page_of. rewrite slice_list_window by nia.
  eexists _, _. repeat split; reflexivity.
Qed.

Lemma str_lower_empty s : str_lower s = "" <-> s = "".
Proof. destruct s; simpl; split; congruence. Qed.

Lemma opt_truthy_lower q q' :
  str_lower q = str_lower q' -> opt_truthy (Some q) = opt_truthy (Some q').
Proof.
  intros H. simpl. f_equal.
  destruct (String.eqb_spec q ""), (String.eqb_spec q' ""); try reflexivity; subst.
  - simpl in H. symmetry in H. apply (proj1 (str_lower_empty _)) in H. congruence.
  - simpl in H. apply (proj1 (str_lower_empty _)) in H. congruence.
Qed.

(** X17: [list_recipes] looks at the query and the ingredient filter only
    through their lower-case forms, so two spellings that differ in case
    give the same result whatever the store holds; and an empty string as
    a filter is the same as no filter. *)
Theorem filters_ignore_case w q q' x x' other p s :
  str_lower q = str_lower q' ->
  str_lower x = str_lower x' ->
  list_recipes (Some q) (Some x) p s w = list_recipes (Some q') (Some x') p s w /\
  list_recipes (Some q) other p s w = list_recipes (Some q') other p s w /\
  list_recipes other (Some x) p s w = list_recipes other (Some x') p s w /\
  list_recipes (Some "") other p s w = list_recipes None other p s w /\
  list_recipes other (Some "") p s w = list_recipes other None p s w.
Proof.
  intros Hq Hx. unfold list_recipes.
  rewrite (opt_truthy_lower q q' Hq), (opt_truthy_lower x x' Hx), Hq, Hx.
  repeat split; reflexivity.
Qed.

(** * The further statements at sample inputs *)

Lemma sample_reads : _read_file sample_world = (Ok (VDict sample_document), sample_world).
Proof. vm_compute. reflexivity. Defined.

Lemma sample_recipes_stored : sample_document !! "recipes" = Some (VList sample_recipes).
Proof. vm_compute. reflexivity. Defined.

Lemma sample_counter : sample_document !! "next_id" = Some (VInt 3).
Proof. vm_compute. reflexivity. Defined.

Lemma sample_ids : mapM id_of sample_recipes = Some [1; 2].
Proof. vm_compute. reflexivity. Defined.

Lemma sample_ids_below : Forall (fun i => i < 3) [1; 2].
Proof. repeat constructor. Defined.

Lemma get_recipe_first_match_witness :
  file sample_world = Decoded (VDict sample_document) /\
  sample_document !! "recipes" = Some (VList sample_recipes) /\
  get_recipe 2 sample_world = (Ok (Some (VDict salad_fields)), sample_world).
Proof.
  split; [reflexivity|]. split; [exact sample_recipes_stored|].
  destruct (get_recipe_first_match sample_world sample_document sample_recipes 2
              eq_refl sample_recipes_stored sample_next_id sample_recipes_dicts)
    as (found & Hrun & _ & Hfirst).
  rewrite Hrun. f_equal. f_equal.
  exact (Hfirst [VDict soup_fields] (VDict salad_fields) [] eq_refl eq_refl eq_refl).
Defined.

Lemma create_then_get_witness :
  _read_file sample_world = (Ok (VDict sample_document), sample_world) /\
  mapM id_of sample_recipes = Some [1; 2] /\
  Forall (fun i => i < 3) [1; 2] /\
  exists r w',
    create_recipe sample_clock sample_int_of_str {[ "title" := VStr "Stew" ]} sample_world
      = (Ok r, w') /\
    get_recipe 3 w' = (Ok (Some (VDict r)), w') /\
    fst (get_recipe 1 w') = fst (get_recipe 1 sample_world).
Proof.
  split; [exact sample_reads|]. split; [exact sample_ids|].
  split; [exact sample_ids_below|].
  destruct (create_recipe sample_clock sample_int_of_str {[ "title" := VStr "Stew" ]}
              sample_world) as [[r|e] w'] eqn:Hrun;
    [|vm_compute in Hrun; discriminate Hrun].
  destruct (create_then_get sample_clock sample_int_of_str sample_world
              sample_document sample_recipes 3 [1; 2] {[ "title" := VStr "Stew" ]} r w'
              sample_reads sample_recipes_stored sample_counter sample_ids
              sample_ids_below Hrun)
    as (H2 & H3).
  exists r, w'. split; [reflexivity|]. split; [exact H2|]. apply H3. discriminate.
Defined.

Lemma delete_then_get_witness :
  file sample_world = Decoded (VDict sample_document) /\
  sample_document !! "recipes" = Some (VList sample_recipes) /\
  exists deleted w',
    delete_recipe 1 sample_world = (Ok deleted, w') /\
    get_recipe 1 w' = (Ok None, w') /\
    fst (get_recipe 2 w') = fst (get_recipe 2 sample_world).
Proof.
  split; [reflexivity|]. split; [exact sample_recipes_stored|].
  destruct (delete_then_get sample_world sample_document sample_recipes 1
              eq_refl sample_recipes_stored sample_next_id sample_recipes_dicts)
    as (deleted & w' & H1 & H2 & H3).
  exists deleted, w'. split; [exact H1|]. split; [exact H2|]. apply H3. discriminate.
Defined.

Lemma update_then_get_witness :
  file sample_world = Decoded (VDict sample_document) /\
  sample_document !! "recipes" = Some (VList ([VDict soup_fields] ++ VDict salad_fields :: [])) /\
  Forall (other_recipe 2) [VDict soup_fields] /\
  has_id 2 (VDict salad_fields) = true /\
  exists found r' w',
    update_recipe sample_clock 2 {[ "title" := VStr "Salad" ]} sample_world
      = (Ok found, w') /\
    found = Some (VDict r') /\
    get_recipe 2 w' = (Ok (Some (VDict r')), w') /\
    fst (get_recipe 1 w') = fst (get_recipe 1 sample_world).
Proof.
  assert (Hpre : Forall (other_recipe 2) [VDict soup_fields]) by (repeat constructor).
  split; [reflexivity|]. split; [exact sample_recipes_stored|].
  split; [exact Hpre|]. split; [vm_compute; reflexivity|].
  destruct (update_recipe sample_clock 2 {[ "title" := VStr "Salad" ]} sample_world)
    as [[found|e] w'] eqn:Hrun; [|vm_compute in Hrun; discriminate Hrun].
  destruct (update_then_get sample_clock sample_world sample_document
              [VDict soup_fields] salad_fields [] 2 {[ "title" := VStr "Salad" ]} found w'
              eq_refl sample_recipes_stored sample_next_id Hpre
              ltac:(vm_compute; reflexivity) ltac:(constructor) Hrun)
    as (r' & H1 & H2 & H3).
  exists found, r', w'. split; [reflexivity|]. split; [exact H1|].
  split; [exact H2|]. apply H3. discriminate.
Defined.

Lemma create_recipe_stamps_witness :
  let recipe : pydict :=
    {[ "title" := VStr "Stew"; "id" := VInt 99; "created_at" := VInt 5;
       "servings" := VInt 4 ]} in
  _read_file sample_world = (Ok (VDict sample_document), sample_world) /\
  sample_document !! "next_id" = Some (VInt 3) /\
  exists r w' now,
    create_recipe sample_clock sample_int_of_str recipe sample_world = (Ok r, w') /\
    r !! "id" = Some (VInt 3) /\
    r !! "created_at" = Some (VInt now) /\
    r !! "updated_at" = Some (VInt now) /\
    r !! "servings" = Some (VInt 4).
Proof.
  intros recipe. split; [exact sample_reads|]. split; [exact sample_counter|].
  destruct (create_recipe sample_clock sample_int_of_str recipe sample_world)
    as [[r|e] w'] eqn:Hrun; [|vm_compute in Hrun; discriminate Hrun].
  destruct (create_recipe_stamps sample_clock sample_int_of_str sample_world
              sample_document sample_recipes 3 recipe r w'
              sample_reads sample_recipes_stored sample_counter Hrun)
    as (now & H2 & H3 & H4 & H5 & _).
  exists r, w', now. split; [reflexivity|]. repeat (split; [assumption|]).
  rewrite (H5 "servings"); try discriminate; [reflexivity|].
  left. eexists. vm_compute. reflexivity.
Defined.

Lemma mutations_keep_ids_distinct_witness :
  let create title w :=
    snd (create_recipe sample_clock sample_int_of_str {[ "title" := VStr title ]} w) in
  let w3 := create "Salad" (create "Stew" (create "Soup" empty_world)) in
  let w4 := snd (update_recipe sample_clock 3 {[ "title" := VStr "Slaw" ]} w3) in
  let w5 := snd (delete_recipe 1 w4) in
  reachable_by_mutations sample_clock sample_int_of_str w5 /\
  match file w5 with
  | Decoded (VDict d) =>
      match d !! "recipes", d !! "next_id" with
      | Some (VList rs), Some (VInt n) => mapM id_of rs = Some [2; 3] /\ n = 4
      | _, _ => False
      end
  | _ => False
  end /\
  exists d rs n ids,
    _read_file w5 = (Ok (VDict d), w5) /\
    d !! "recipes" = Some (VList rs) /\
    d !! "next_id" = Some (VInt n) /\
    mapM id_of rs = Some ids /\ NoDup ids /\ Forall (fun i => i < n) ids /\
    (exists deleted w', delete_recipe 2 w5 = (Ok deleted, w')) /\
    (exists found, get_recipe 3 w5 = (Ok found, w5)).
Proof.
  intros create w3 w4 w5.
  assert (Hr : reachable_by_mutations sample_clock sample_int_of_str w5).
  { refine (mut_delete _ _ w4 1 _ _ _ (surjective_pairing _)).
    refine (mut_update _ _ w3 3 _ _ _ _ (surjective_pairing _)).
    refine (mut_create _ _ _ _ _ _ _ (surjective_pairing _)).
    refine (mut_create _ _ _ _ _ _ _ (surjective_pairing _)).
    exact (mut_create _ _ empty_world _ _ _
             (mut_default _ _ empty_world eq_refl) (surjective_pairing _)). }
  split; [exact Hr|].
  split; [vm_compute; split; reflexivity|].
  destruct (mutations_keep_ids_distinct sample_clock sample_int_of_str w5 Hr)
    as (d & rs & n & ids & H1 & H2 & H3 & H4 & H5 & H6 & H7 & H8 & _).
  exists d, rs, n, ids. repeat (split; [assumption|]).
  split; [exact (H7 2) | exact (H8 3)].
Defined.

Lemma pages_cover_filtered_witness :
  file sample_world = Decoded (VDict sample_document) /\
  sample_document !! "recipes" = Some (VList sample_recipes) /\
  flat_map (fun k => items_of (list_recipes None None (Z.of_nat k + 1) 1 sample_world))
    (seq 0 (Z.to_nat (pages_of (list_recipes None None 1 1 sample_world))))
  = sample_recipes.
Proof.
  split; [reflexivity|]. split; [exact sample_recipes_stored|].
  exact (pages_cover_filtered sample_world sample_document sample_recipes None None 1
           eq_refl sample_recipes_stored sample_next_id sample_recipes_typed).
Defined.

Lemma failed_mutations_write_nothing_witness :
  let failed := create_recipe sample_clock sample_int_of_str ∅ broken_world in
  fst failed = Raise AttributeError /\
  delete_recipe 7 sample_world = (Ok false, sample_world) /\
  file (snd failed) = file broken_world /\
  sessions (snd failed) = sessions broken_world.
Proof.
  intros failed.
  split; [vm_compute; reflexivity|]. split; [vm_compute; reflexivity|].
  destruct (failed_mutations_write_nothing sample_clock sample_int_of_str broken_world)
    as (Hcreate & _ & _).
  apply (Hcreate ∅ AttributeError (snd failed)).
  vm_compute. reflexivity.
Defined.

Lemma tokens_differ_witness :
  "ann" <> "bob" /\
  exists token1 token2 w1' w2',
    create_session frozen_clock "ann" "Ann" empty_world = (Ok token1, w1') /\
    create_session frozen_clock "bob" "Bob" empty_world = (Ok token2, w2') /\
    token1 <> token2.
Proof.
  split; [discriminate|].
  apply (tokens_differ frozen_clock empty_world empty_world "ann" "Ann" "bob" "Bob").
  left. discriminate.
Defined.

Lemma sessions_are_independent_witness :
  let w1 := snd (create_session sample_clock "ann" "Ann" empty_world) in
  exists new w',
    create_session sample_clock "bob" "Bob" w1 = (Ok new, w') /\
    "token_ann_1700000000" <> new /\
    fst (get_session "token_ann_1700000000" w')
      = Ok (Some (mkSession "ann" "Ann" 1700000001)).
Proof.
  intros w1.
  destruct (sessions_are_independent sample_clock w1 "bob" "Bob" "token_bob_1700000002"
              "token_ann_1700000000")
    as ((new & w' & H1 & _ & H2) & _).
  assert (Hnew : new = "token_bob_1700000002").
  { rewrite create_session_run in H1. injection H1 as <- _. reflexivity. }
  exists new, w'. split; [exact H1|].
  assert (Hne : "token_ann_1700000000" <> new) by (rewrite Hnew; discriminate).
  split; [exact Hne|]. rewrite (H2 Hne). reflexivity.
Defined.

Lemma login_me_logout_witness :
  is_substring "Bearer " "bob" = false /\
  exists token w1,
    login_post sample_clock "bob" empty_world =
      (Ok (Returned (VDict {[ "success" := VBool true;
                              "token" := VStr token;
                              "user" := user_body "bob" "bob" ]})), w1) /\
    me_get (Some (String.append "Bearer " token)) w1 =
      (Ok (Returned (VDict {[ "success" := VBool true;
                              "user" := user_body "bob" "bob" ]})), w1).
Proof.
  split; [reflexivity|].
  destruct (login_me_logout sample_clock empty_world "bob" eq_refl)
    as (token & w1 & w2 & H1 & H2 & _).
  exists token, w1. split; assumption.
Defined.

Lemma item_routes_404_iff_missing_witness :
  let updates : pydict := {[ "title" := VStr "Slaw" ]} in
  file sample_world = Decoded (VDict sample_document) /\
  sample_document !! "recipes" = Some (VList sample_recipes) /\
  (exists resp r,
     recipe_item_get 2 sample_world = (Ok resp, sample_world) /\
     resp = Returned (VDict {[ "success" := VBool true; "data" := r ]})) /\
  (exists resp w' r,
     recipe_item_put sample_clock updates 2 sample_world = (Ok resp, w') /\
     resp = Returned (VDict {[ "success" := VBool true; "data" := r ]})) /\
  recipe_item_put sample_clock updates 7 sample_world
    = (Ok (Aborted 404 "Recipe not found"), sample_world).
Proof.
  intros updates.
  split; [reflexivity|]. split; [exact sample_recipes_stored|].
  destruct (item_routes_404_iff_missing sample_clock sample_world sample_document
              sample_recipes 2 updates eq_refl sample_recipes_stored sample_next_id
              sample_recipes_dicts)
    as ((resp & H1 & _ & H2) & _ & Hput & _).
  destruct (item_routes_404_iff_missing sample_clock sample_world sample_document
              sample_recipes 7 updates eq_refl sample_recipes_stored sample_next_id
              sample_recipes_dicts)
    as (_ & Hmissing & _).
  split.
  { destruct (H2 eq_refl) as (r & _ & H3). exists resp, r. split; assumption. }
  split; [|exact (Hmissing eq_refl)].
  destruct (recipe_item_put sample_clock updates 2 sample_world)
    as [[resp'|e] w'] eqn:Hrun; [|vm_compute in Hrun; discriminate Hrun].
  destruct (Hput resp' w' eq_refl) as (_ & _ & H4).
  destruct (H4 eq_refl) as (r & _ & H5).
  exists resp', w', r. split; [reflexivity | exact H5].
Defined.

Lemma post_get_delete_routes_witness :
  _read_file sample_world = (Ok (VDict sample_document), sample_world) /\
  mapM id_of sample_recipes = Some [1; 2] /\
  exists resp r w1 w2,
    recipes_post sample_clock sample_int_of_str {[ "title" := VStr "Stew" ]} sample_world
      = (Ok resp, w1) /\
    resp = Returned (VDict {[ "success" := VBool true; "data" := VDict r ]}) /\
    recipe_item_get 3 w1 = (Ok resp, w1) /\
    recipe_item_delete 3 w1 = (Ok (Returned (VDict {[ "success" := VBool true ]})), w2) /\
    recipe_item_get 3 w2 = (Ok (Aborted 404 "Recipe not found"), w2).
Proof.
  split; [exact sample_reads|]. split; [exact sample_ids|].
  destruct (recipes_post sample_clock sample_int_of_str {[ "title" := VStr "Stew" ]}
              sample_world) as [[resp|e] w1] eqn:Hrun;
    [|vm_compute in Hrun; discriminate Hrun].
  destruct (post_get_delete_routes sample_clock sample_int_of_str sample_world
              sample_document sample_recipes 3 [1; 2] {[ "title" := VStr "Stew" ]}
              resp w1
              sample_reads sample_recipes_stored sample_counter sample_ids
              sample_ids_below Hrun)
    as (r & w2 & H1 & _ & H2 & H3 & H4 & _).
  exists resp, r, w1, w2. split; [reflexivity|]. split; [exact H1|].
  split; [now rewrite H1|]. split; assumption.
Defined.

Lemma validated_paging_is_unclamped_witness :
  let data : pydict := {[ "page" := VInt 2; "page_size" := VInt 1 ]} in
  data !! "page" = Some (VInt 2) /\
  data !! "page_size" = Some (VInt 1) /\
  validate_pagination data = Ok Valid /\
  exists items meta,
    list_recipes None None 2 1 sample_world = (Ok (VList items, meta), sample_world) /\
    page meta = 2 /\ page_size meta = 1.
Proof.
  intros data.
  split; [vm_compute; reflexivity|]. split; [vm_compute; reflexivity|].
  destruct (validated_paging_is_unclamped sample_world sample_document sample_recipes
              None None data 2 1 eq_refl sample_recipes_stored sample_next_id
              sample_recipes_typed ltac:(vm_compute; reflexivity)
              ltac:(vm_compute; reflexivity))
    as (Hiff & _ & _ & Hlist).
  assert (Hvalid : validate_pagination data = Ok Valid) by (apply Hiff; lia).
  split; [exact Hvalid|].
  destruct (Hlist Hvalid) as (items & meta & H1 & H2 & H3 & _).
  exists items, meta. repeat split; assumption.
Defined.

Lemma filters_ignore_case_witness :
  str_lower "TOMATO" = str_lower "tomato" /\
  str_lower "Feta" = str_lower "FETA" /\
  list_recipes (Some "TOMATO") (Some "Feta") 1 10 sample_world
    = list_recipes (Some "tomato") (Some "FETA") 1 10 sample_world.
Proof.
  split; [reflexivity|]. split; [reflexivity|].
  exact (proj1 (filters_ignore_case sample_world "TOMATO" "tomato" "Feta" "FETA"
                  None 1 10 eq_refl eq_refl)).
Defined.
